(** * Shortcut_tips: the global hotkey listener (hotkey_listener.py)

    A shallow embedding of [HotkeyListener]: the pressed-key set, the
    combination predicate, the debounced key-down handler, the key-up
    handler and the start/stop life cycle, followed by the properties the
    design document states about them.

    Conventions of the model.
    - Virtual-key codes are Python integers, here [Z]; [pressed_keys] is a
      Python [set], here a [gset Z].
    - [time.time()] is read by the key-down handler; its value is an input
      of the handler.  Clock readings and [debounce_interval] are seconds,
      modelled as exact rationals ([Q]) where Python has binary floats.
    - Key names are strings over the ASCII repertoire; [lower], [upper] and
      [isalpha] are the ASCII restrictions of the Python string methods.
    - The [win32con] constants are those of the Windows API headers.
    - A method is a function in the monad [M]: it threads the listener
      object and collects the Qt signals emitted on the way. *)

From Stdlib Require Import ZArith QArith Lqa Ascii String.
From stdpp Require Import base gmap sets list strings.

Local Open Scope Z_scope.

(** ** win32con constants *)

Module win32con.
Definition WM_KEYDOWN : Z := 0x100.
Definition WM_KEYUP : Z := 0x101.
Definition WM_SYSKEYDOWN : Z := 0x104.
Definition WM_SYSKEYUP : Z := 0x105.

Definition VK_BACK : Z := 0x08.
Definition VK_TAB : Z := 0x09.
Definition VK_RETURN : Z := 0x0D.
Definition VK_ESCAPE : Z := 0x1B.
Definition VK_SPACE : Z := 0x20.
Definition VK_PRIOR : Z := 0x21.
Definition VK_NEXT : Z := 0x22.
Definition VK_END : Z := 0x23.
Definition VK_HOME : Z := 0x24.
Definition VK_LEFT : Z := 0x25.
Definition VK_UP : Z := 0x26.
Definition VK_RIGHT : Z := 0x27.
Definition VK_DOWN : Z := 0x28.
Definition VK_INSERT : Z := 0x2D.
Definition VK_DELETE : Z := 0x2E.

Definition VK_NUMPAD0 : Z := 0x60.
Definition VK_NUMPAD1 : Z := 0x61.
Definition VK_NUMPAD2 : Z := 0x62.
Definition VK_NUMPAD3 : Z := 0x63.
Definition VK_NUMPAD4 : Z := 0x64.
Definition VK_NUMPAD5 : Z := 0x65.
Definition VK_NUMPAD6 : Z := 0x66.
Definition VK_NUMPAD7 : Z := 0x67.
Definition VK_NUMPAD8 : Z := 0x68.
Definition VK_NUMPAD9 : Z := 0x69.

Definition VK_F1 : Z := 0x70.
Definition VK_F2 : Z := 0x71.
Definition VK_F3 : Z := 0x72.
Definition VK_F4 : Z := 0x73.
Definition VK_F5 : Z := 0x74.
Definition VK_F6 : Z := 0x75.
Definition VK_F7 : Z := 0x76.
Definition VK_F8 : Z := 0x77.
Definition VK_F9 : Z := 0x78.
Definition VK_F10 : Z := 0x79.
Definition VK_F11 : Z := 0x7A.
Definition VK_F12 : Z := 0x7B.

Definition VK_LSHIFT : Z := 0xA0.
Definition VK_RSHIFT : Z := 0xA1.
Definition VK_LCONTROL : Z := 0xA2.
Definition VK_RCONTROL : Z := 0xA3.
Definition VK_LMENU : Z := 0xA4.
Definition VK_RMENU : Z := 0xA5.
End win32con.

(** ** Python strings (ASCII) *)

Definition ascii_code (c : ascii) : Z := Z.of_N (Ascii.N_of_ascii c).

Definition is_upper_ascii (c : ascii) : bool :=
  (65 <=? ascii_code c) && (ascii_code c <=? 90).

Definition is_lower_ascii (c : ascii) : bool :=
  (97 <=? ascii_code c) && (ascii_code c <=? 122).

Definition lower_ascii (c : ascii) : ascii :=
  if is_upper_ascii c
  then Ascii.ascii_of_N (Z.to_N (ascii_code c + 32)) else c.

Definition upper_ascii (c : ascii) : ascii :=
  if is_lower_ascii c
  then Ascii.ascii_of_N (Z.to_N (ascii_code c - 32)) else c.

(** [str.lower()] *)
Fixpoint lower (s : string) : string :=
  match s with
  | EmptyString => EmptyString
  | String c r => String (lower_ascii c) (lower r)
  end.

(** [str.upper()] *)
Fixpoint upper (s : string) : string :=
  match s with
  | EmptyString => EmptyString
  | String c r => String (upper_ascii c) (upper r)
  end.

Fixpoint all_alpha (s : string) : bool :=
  match s with
  | EmptyString => true
  | String c r => (is_upper_ascii c || is_lower_ascii c) && all_alpha r
  end.

(** [str.isalpha()]: every character is a letter and there is at least one. *)
Definition isalpha (s : string) : bool :=
  match s with
  | EmptyString => false
  | String _ _ => all_alpha s
  end.

(** [len(s)] *)
Definition len (s : string) : Z := Z.of_nat (String.length s).

(** [ord(s)].  Python raises [TypeError] unless [len(s) == 1]; every call in
    the listener is guarded by that test, and the value given here to other
    strings is never used. *)
Definition ord (s : string) : Z :=
  match s with
  | String c _ => ascii_code c
  | EmptyString => 0
  end.

(** ** The listener object *)

(** The [hotkey_config] dict.  [cfg_key = None] is a dict without the
    ['key'] entry, for which [.get('key', 'f12')] supplies the default. *)
Record config : Type := Config {
  cfg_ctrl : bool;
  cfg_shift : bool;
  cfg_alt : bool;
  cfg_key : option string
}.

(** The two Qt signals of the class. *)
Inductive signal : Type := hotkey_pressed | hotkey_released.

Global Instance signal_eq_dec : EqDecision signal.
Proof. solve_decision. Defined.

(** What a method returns to its caller. *)
Inductive pyval : Type := PyNone | PyBool (b : bool).

Record listener : Type := Listener {
  hotkey_config : config;
  is_running : bool;
  hook_id : option Z;
  pressed_keys : gset Z;
  hotkey_active : bool;
  last_hotkey_time : Q;
  debounce_interval : Q
}.

Definition set_hotkey_config (c : config) (s : listener) : listener :=
  Listener c (is_running s) (hook_id s) (pressed_keys s)
           (hotkey_active s) (last_hotkey_time s) (debounce_interval s).

Definition set_is_running (b : bool) (s : listener) : listener :=
  Listener (hotkey_config s) b (hook_id s) (pressed_keys s)
           (hotkey_active s) (last_hotkey_time s) (debounce_interval s).

Definition set_hook_id (h : option Z) (s : listener) : listener :=
  Listener (hotkey_config s) (is_running s) h (pressed_keys s)
           (hotkey_active s) (last_hotkey_time s) (debounce_interval s).

Definition set_pressed_keys (ks : gset Z) (s : listener) : listener :=
  Listener (hotkey_config s) (is_running s) (hook_id s) ks
           (hotkey_active s) (last_hotkey_time s) (debounce_interval s).

Definition set_hotkey_active (b : bool) (s : listener) : listener :=
  Listener (hotkey_config s) (is_running s) (hook_id s) (pressed_keys s)
           b (last_hotkey_time s) (debounce_interval s).

Definition set_last_hotkey_time (t : Q) (s : listener) : listener :=
  Listener (hotkey_config s) (is_running s) (hook_id s) (pressed_keys s)
           (hotkey_active s) t (debounce_interval s).

(** ** The method monad: state of the object plus emitted signals *)

Definition M (A : Type) : Type := listener → A * listener * list signal.

Global Instance M_ret : MRet M := λ A a s, (a, s, []).

Global Instance M_bind : MBind M := λ A B k m s,
  let '(a, s1, o1) := m s in
  let '(b, s2, o2) := k a s1 in
  (b, s2, o1 ++ o2).

(** Read an attribute of [self]. *)
Definition attr {A : Type} (f : listener → A) : M A := λ s, (f s, s, []).

(** Assign to attributes of [self]. *)
Definition assign (f : listener → listener) : M unit := λ s, (tt, f s, []).

(** [sig.emit()] *)
Definition emit (sig : signal) : M unit := λ s, (tt, s, [sig]).

Definition result_of {A : Type} (r : A * listener * list signal) : A := r.1.1.
Definition state_of {A : Type} (r : A * listener * list signal) : listener := r.1.2.
Definition signals_of {A : Type} (r : A * listener * list signal) : list signal := r.2.

(** ** Construction *)

Definition default_config : config :=
  Config true true false (Some "f12").

(** [HotkeyListener.__init__]: [hotkey_config or {...}] falls back to the
    default when the argument is false in Python's sense.  [None] stands
    for such an argument (none given, [None], or an empty dict); [Some cfg]
    is a dict with at least one entry. *)
Definition __init__ (hotkey_config : option config) : listener :=
  {| hotkey_config := default default_config hotkey_config;
     is_running := false;
     hook_id := None;
     pressed_keys := ∅;
     hotkey_active := false;
     last_hotkey_time := 0%Q;
     debounce_interval := (5 # 100)%Q |}.

(** ** The key-name table

    The dict literal [key_mapping] is written out three times in the source
    ([_is_hotkey_pressed], [_was_hotkey_key], [_get_required_vk_codes]) with
    the same entries; it is given once here. *)

Section KeyTable.
Import win32con.
Local Open Scope string_scope.

Definition key_mapping_items : list (string * Z) :=
  [ ("f1", VK_F1); ("f2", VK_F2); ("f3", VK_F3);
    ("f4", VK_F4); ("f5", VK_F5); ("f6", VK_F6);
    ("f7", VK_F7); ("f8", VK_F8); ("f9", VK_F9);
    ("f10", VK_F10); ("f11", VK_F11); ("f12", VK_F12);
    ("0", 0x30); ("1", 0x31); ("2", 0x32); ("3", 0x33); ("4", 0x34);
    ("5", 0x35); ("6", 0x36); ("7", 0x37); ("8", 0x38); ("9", 0x39);
    ("num0", VK_NUMPAD0); ("num1", VK_NUMPAD1); ("num2", VK_NUMPAD2);
    ("num3", VK_NUMPAD3); ("num4", VK_NUMPAD4); ("num5", VK_NUMPAD5);
    ("num6", VK_NUMPAD6); ("num7", VK_NUMPAD7); ("num8", VK_NUMPAD8);
    ("num9", VK_NUMPAD9);
    ("up", VK_UP); ("down", VK_DOWN); ("left", VK_LEFT); ("right", VK_RIGHT);
    ("space", VK_SPACE); ("tab", VK_TAB); ("enter", VK_RETURN);
    ("esc", VK_ESCAPE); ("backspace", VK_BACK); ("delete", VK_DELETE);
    ("home", VK_HOME); ("end", VK_END); ("pageup", VK_PRIOR);
    ("pagedown", VK_NEXT); ("insert", VK_INSERT);
    (";", 0xBA); ("=", 0xBB); (",", 0xBC); ("-", 0xBD); (".", 0xBE);
    ("/", 0xBF); ("`", 0xC0); ("[", 0xDB); ("\", 0xDC); ("]", 0xDD);
    ("'", 0xDE) ].

Definition key_mapping : gmap string Z := list_to_map key_mapping_items.

(** [self.hotkey_config.get('key', 'f12').lower()] *)
Definition config_key_name (cfg : config) : string :=
  lower (default "f12" (cfg_key cfg)).
End KeyTable.

(** ** The combination predicate and its relatives *)

Section Predicates.
Import win32con.

(** [HotkeyListener._is_hotkey_pressed] *)
Definition _is_hotkey_pressed (self : listener) : bool :=
  let ctrl_pressed :=
    if cfg_ctrl (hotkey_config self)
    then bool_decide (VK_LCONTROL ∈ pressed_keys self)
         || bool_decide (VK_RCONTROL ∈ pressed_keys self)
    else true in
  let shift_pressed :=
    if cfg_shift (hotkey_config self)
    then bool_decide (VK_LSHIFT ∈ pressed_keys self)
         || bool_decide (VK_RSHIFT ∈ pressed_keys self)
    else true in
  let alt_pressed :=
    if cfg_alt (hotkey_config self)
    then bool_decide (VK_LMENU ∈ pressed_keys self)
         || bool_decide (VK_RMENU ∈ pressed_keys self)
    else true in
  let key_name := config_key_name (hotkey_config self) in
  let main_key_pressed :=
    match key_mapping !! key_name with
    | Some code => bool_decide (code ∈ pressed_keys self)
    | None =>
        if bool_decide (len key_name = 1) && isalpha key_name
        then bool_decide (ord (upper key_name) ∈ pressed_keys self)
        else false
    end in
  ctrl_pressed && shift_pressed && alt_pressed && main_key_pressed.

(** [HotkeyListener._was_hotkey_key] *)
Definition _was_hotkey_key (self : listener) (vk_code : Z) : bool :=
  if cfg_ctrl (hotkey_config self)
     && bool_decide (vk_code ∈ [VK_LCONTROL; VK_RCONTROL])
  then true
  else if cfg_shift (hotkey_config self)
          && bool_decide (vk_code ∈ [VK_LSHIFT; VK_RSHIFT])
  then true
  else if cfg_alt (hotkey_config self)
          && bool_decide (vk_code ∈ [VK_LMENU; VK_RMENU])
  then true
  else
    let key_name := config_key_name (hotkey_config self) in
    match key_mapping !! key_name with
    | Some code => bool_decide (vk_code = code)
    | None =>
        if bool_decide (len key_name = 1) && isalpha key_name
        then bool_decide (vk_code = ord (upper key_name))
        else false
    end.

(** [HotkeyListener._get_required_vk_codes] *)
Definition _get_required_vk_codes (self : listener) : gset Z :=
  let vk_codes : gset Z := ∅ in
  let vk_codes :=
    if cfg_ctrl (hotkey_config self)
    then vk_codes ∪ {[VK_LCONTROL]} ∪ {[VK_RCONTROL]} else vk_codes in
  let vk_codes :=
    if cfg_shift (hotkey_config self)
    then vk_codes ∪ {[VK_LSHIFT]} ∪ {[VK_RSHIFT]} else vk_codes in
  let vk_codes :=
    if cfg_alt (hotkey_config self)
    then vk_codes ∪ {[VK_LMENU]} ∪ {[VK_RMENU]} else vk_codes in
  let key_name := config_key_name (hotkey_config self) in
  match key_mapping !! key_name with
  | Some code => vk_codes ∪ {[code]}
  | None =>
      if bool_decide (len key_name = 1) && isalpha key_name
      then vk_codes ∪ {[ord (upper key_name)]}
      else vk_codes
  end.
End Predicates.

(** ** The two event handlers *)

(** [HotkeyListener._on_key_down]; [now] is the value [time.time()] returns
    when the handler reads the clock. *)
Definition _on_key_down (now : Q) (vk_code : Z) : M pyval :=
  assign (λ self, set_pressed_keys ({[vk_code]} ∪ pressed_keys self) self);;
  hotkey_matched ← attr _is_hotkey_pressed;
  if hotkey_matched : bool then
    active ← attr hotkey_active;
    if negb active then
      let current_time := now in
      last ← attr last_hotkey_time;
      interval ← attr debounce_interval;
      if Qle_bool interval (current_time - last) then
        assign (set_hotkey_active true);;
        assign (set_last_hotkey_time current_time);;
        emit hotkey_pressed;;
        mret PyNone
      else mret PyNone
    else mret PyNone
  else
    assign (set_hotkey_active false);;
    mret PyNone.

(** [HotkeyListener._on_key_up] *)
Definition _on_key_up (vk_code : Z) : M pyval :=
  pressed ← attr pressed_keys;
  if bool_decide (vk_code ∈ pressed) then
    assign (λ self, set_pressed_keys (pressed_keys self ∖ {[vk_code]}) self);;
    was ← attr (λ self, _was_hotkey_key self vk_code);
    if was : bool then
      assign (set_hotkey_active false);;
      emit hotkey_released;;
      mret PyNone
    else mret PyNone
  else mret PyNone.

(** [HotkeyListener._static_keyboard_proc], with the listener registered in
    [_global_listener_instance]: the case split on [nCode] and [wParam].
    [vkCode] is the field read from the [KBDLLHOOKSTRUCT] behind [lParam];
    the value handed on by [CallNextHookEx] is not modelled. *)
Definition _static_keyboard_proc (now : Q) (nCode wParam vkCode : Z) : M unit :=
  if bool_decide (0 ≤ nCode) then
    if bool_decide (wParam = win32con.WM_KEYDOWN)
       || bool_decide (wParam = win32con.WM_SYSKEYDOWN)
    then _on_key_down now vkCode;; mret tt
    else if bool_decide (wParam = win32con.WM_KEYUP)
            || bool_decide (wParam = win32con.WM_SYSKEYUP)
    then _on_key_up vkCode;; mret tt
    else mret tt
  else mret tt.

(** A key transition as the hook delivers it to the listener. *)
Inductive key_event : Type :=
  | KeyDown (now : Q) (vk_code : Z)
  | KeyUp (vk_code : Z).

Definition handle (e : key_event) : M pyval :=
  match e with
  | KeyDown now vk_code => _on_key_down now vk_code
  | KeyUp vk_code => _on_key_up vk_code
  end.

(** The hook callback run on a stream of key transitions, in order. *)
Fixpoint replay (evs : list key_event) : M unit :=
  match evs with
  | [] => mret tt
  | e :: rest => handle e;; replay rest
  end.

(** The clock readings at which [hotkey_pressed] was emitted during a
    replay. *)
Fixpoint activation_times (evs : list key_event) (self : listener) : list Q :=
  match evs with
  | [] => []
  | e :: rest =>
      let r := handle e self in
      match e with
      | KeyDown now _ =>
          if bool_decide (hotkey_pressed ∈ signals_of r) then [now] else []
      | KeyUp _ => []
      end ++ activation_times rest (state_of r)
  end.

(** ** Life cycle *)

(** Truth value of [self.hook_id]: [None] and a null handle are false. *)
Definition hook_truthy (h : option Z) : bool :=
  match h with
  | Some z => negb (z =? 0)
  | None => false
  end.

(** [HotkeyListener.start].  [thread_started] tells whether creating and
    starting the hook thread went through ([true]) or raised ([false]); the
    thread body [_hook_proc] runs on its own afterwards. *)
Definition start (thread_started : bool) : M pyval :=
  running ← attr is_running;
  if running : bool then mret (PyBool true)
  else if thread_started then
    assign (set_is_running true);;
    mret (PyBool true)
  else mret (PyBool false).

(** [HotkeyListener._hook_proc] up to the test of the handle that
    [SetWindowsHookExW] returned ([handle_returned]; null on failure).  The
    result tells whether the message loop is entered.  When it is not, the
    [finally] block finds a false [hook_id] and does nothing. *)
Definition _hook_proc_install (handle_returned : Z) : M bool :=
  assign (set_hook_id (Some handle_returned));;
  h ← attr hook_id;
  if negb (hook_truthy h) then mret false else mret true.

(** The [finally] block of [_hook_proc], run when the message loop ends. *)
Definition _hook_proc_finally : M unit :=
  h ← attr hook_id;
  if hook_truthy h then assign (set_hook_id None) else mret tt.

(** [HotkeyListener.stop] *)
Definition stop : M pyval :=
  running ← attr is_running;
  if negb running then mret PyNone
  else
    assign (set_is_running false);;
    h ← attr hook_id;
    (if hook_truthy h then assign (set_hook_id None) else mret tt);;
    mret PyNone.

(** [HotkeyListener.register_hotkey] *)
Definition register_hotkey (hotkey_config : config) : M pyval :=
  assign (set_hotkey_config hotkey_config);;
  mret (PyBool true).

(** [HotkeyListener.unregister_hotkey] *)
Definition unregister_hotkey : M pyval :=
  stop;; mret PyNone.

(** [HotkeyListener.update_hotkey_config] *)
Definition update_hotkey_config (thread_started : bool) (new_config : config)
  : M pyval :=
  assign (set_hotkey_config new_config);;
  running ← attr is_running;
  if running : bool then
    stop;;
    start thread_started;;
    mret PyNone
  else mret PyNone.

(** ** The design document's vocabulary

    The design document describes a key-code resolver and a predicate
    [isSatisfied] over the pressed keys.  The source has no such functions:
    the resolution is the [if]/[elif] at the end of the three methods
    above.  The two definitions below follow the document's words; the
    theorems compare them with the methods. *)

(** Key-Code Resolver: the native code of the configured main key, if the
    name resolves. *)
Definition resolved_key (cfg : config) : option Z :=
  let key_name := config_key_name cfg in
  match key_mapping !! key_name with
  | Some code => Some code
  | None =>
      if bool_decide (len key_name = 1) && isalpha key_name
      then Some (ord (upper key_name))
      else None
  end.

(** "all modifier groups present AND main key present", a modifier that is
    not requested being vacuously present. *)
Definition isSatisfied (cfg : config) (pressed : gset Z) : Prop :=
  (cfg_ctrl cfg = true →
     win32con.VK_LCONTROL ∈ pressed ∨ win32con.VK_RCONTROL ∈ pressed) ∧
  (cfg_shift cfg = true →
     win32con.VK_LSHIFT ∈ pressed ∨ win32con.VK_RSHIFT ∈ pressed) ∧
  (cfg_alt cfg = true →
     win32con.VK_LMENU ∈ pressed ∨ win32con.VK_RMENU ∈ pressed) ∧
  (∃ code, resolved_key cfg = Some code ∧ code ∈ pressed).

(** The net set of keys that are down after a stream of transitions. *)
Fixpoint net_keys (evs : list key_event) (down : gset Z) : gset Z :=
  match evs with
  | [] => down
  | KeyDown _ vk :: rest => net_keys rest ({[vk]} ∪ down)
  | KeyUp vk :: rest => net_keys rest (down ∖ {[vk]})
  end.

(** The direction of the last transition of key [k] in a stream:
    [Some true] for a key-down, [Some false] for a key-up, [None] when the
    stream has no transition of [k]. *)
Fixpoint last_transition (k : Z) (evs : list key_event) : option bool :=
  match evs with
  | [] => None
  | e :: rest =>
      match last_transition k rest with
      | Some d => Some d
      | None =>
          match e with
          | KeyDown _ vk => if bool_decide (vk = k) then Some true else None
          | KeyUp vk => if bool_decide (vk = k) then Some false else None
          end
      end
  end.

(** A run of key-downs given by clock reading and code. *)
Definition key_downs (presses : list (Q * Z)) : list key_event :=
  map (λ p, KeyDown p.1 p.2) presses.

(** Clock readings that follow one another, each at least [d] after the
    one before, the first at least [d] after [last]. *)
Fixpoint spaced (d last : Q) (ts : list Q) : Prop :=
  match ts with
  | [] => True
  | t :: rest => (d <= t - last)%Q ∧ spaced d t rest
  end.

(** The two Alt codes. *)
Definition alt_codes : gset Z := {[win32con.VK_LMENU; win32con.VK_RMENU]}.

(** Two listeners that differ at most in which Alt keys they hold down. *)
Definition alt_equiv (s s' : listener) : Prop :=
  hotkey_config s = hotkey_config s' ∧
  is_running s = is_running s' ∧
  hook_id s = hook_id s' ∧
  pressed_keys s ∖ alt_codes = pressed_keys s' ∖ alt_codes ∧
  hotkey_active s = hotkey_active s' ∧
  last_hotkey_time s = last_hotkey_time s' ∧
  debounce_interval s = debounce_interval s'.

(** The number of [hotkey_pressed] among emitted signals. *)
Definition activations (sigs : list signal) : nat :=
  length (filter (λ x, x = hotkey_pressed) sigs).

(** A key-down whose clock reading is less than [d] after [t0]; key-ups do
    not read the clock. *)
Definition within_window (t0 d : Q) (e : key_event) : Prop :=
  match e with
  | KeyDown t _ => (t - t0 < d)%Q
  | KeyUp _ => True
  end.

(** A key-down read at least [d] after [last]: the test of
    [current_time - self.last_hotkey_time >= self.debounce_interval]. *)
Definition outside_window (d last : Q) (p : Q * Z) : bool :=
  Qle_bool d (p.1 - last).

(** ** The hook callback on a stream of calls *)

(** [HotkeyListener._low_level_keyboard_proc], the bound variant of the
    callback: the same case split, with [vkCode] the first word behind
    [lParam]. *)
Definition _low_level_keyboard_proc (now : Q) (nCode wParam vkCode : Z)
  : M unit :=
  if bool_decide (0 ≤ nCode) then
    if bool_decide (wParam = win32con.WM_KEYDOWN)
       || bool_decide (wParam = win32con.WM_SYSKEYDOWN)
    then _on_key_down now vkCode;; mret tt
    else if bool_decide (wParam = win32con.WM_KEYUP)
            || bool_decide (wParam = win32con.WM_SYSKEYUP)
    then _on_key_up vkCode;; mret tt
    else mret tt
  else mret tt.

(** One call of the hook procedure by the system: the arguments [nCode]
    and [wParam], the [vkCode] field behind [lParam], and the clock reading
    at the time of the call. *)
Record hook_call : Type := HookCall {
  hc_time : Q;
  hc_nCode : Z;
  hc_wParam : Z;
  hc_vkCode : Z
}.

(** The hook procedure called once per element, in order. *)
Fixpoint hook_calls (calls : list hook_call) : M unit :=
  match calls with
  | [] => mret tt
  | c :: rest =>
      _static_keyboard_proc (hc_time c) (hc_nCode c) (hc_wParam c)
                            (hc_vkCode c);;
      hook_calls rest
  end.

(** The key transition a hook call carries, if any: Windows sends
    [WM_SYSKEYDOWN]/[WM_SYSKEYUP] in place of [WM_KEYDOWN]/[WM_KEYUP] while
    Alt is held, and calls with a negative [nCode] are to be passed on
    unprocessed. *)
Definition key_event_of (c : hook_call) : option key_event :=
  if bool_decide (hc_nCode c < 0) then None
  else if bool_decide (hc_wParam c ∈ [win32con.WM_KEYDOWN;
                                      win32con.WM_SYSKEYDOWN])
  then Some (KeyDown (hc_time c) (hc_vkCode c))
  else if bool_decide (hc_wParam c ∈ [win32con.WM_KEYUP;
                                      win32con.WM_SYSKEYUP])
  then Some (KeyUp (hc_vkCode c))
  else None.

(** ** Vocabulary of the further properties *)

(** The six modifier codes the listener knows. *)
Definition modifier_codes : gset Z :=
  {[win32con.VK_LCONTROL; win32con.VK_RCONTROL;
    win32con.VK_LSHIFT; win32con.VK_RSHIFT;
    win32con.VK_LMENU; win32con.VK_RMENU]}.

(** The active flag is set only while the combination is held. *)
Definition coherent (s : listener) : Prop :=
  hotkey_active s = true → _is_hotkey_pressed s = true.

(** A signal list in which [hotkey_pressed] occurs only while the hotkey
    is not active: [active] is the flag before the first signal, a
    [hotkey_pressed] sets it and a [hotkey_released] clears it. *)
Fixpoint alternating (active : bool) (sigs : list signal) : Prop :=
  match sigs with
  | [] => True
  | hotkey_pressed :: rest => active = false ∧ alternating true rest
  | hotkey_released :: rest => alternating false rest
  end.

(** The number of [hotkey_released] among emitted signals. *)
Definition releases (sigs : list signal) : nat :=
  length (filter (λ x, x = hotkey_released) sigs).

(** The configuration [cfg] with the entry ['key'] set to [k]. *)
Definition with_key (k : string) (cfg : config) : config :=
  Config (cfg_ctrl cfg) (cfg_shift cfg) (cfg_alt cfg) (Some k).

(** A key name written with ASCII characters only. *)
Fixpoint is_ascii (s : string) : bool :=
  match s with
  | EmptyString => true
  | String c r => (ascii_code c <? 128) && is_ascii r
  end.

(** * Properties *)

(** ** The handlers, step by step *)

Lemma on_key_down_eq now vk self :
  _on_key_down now vk self =
    let s1 := set_pressed_keys ({[vk]} ∪ pressed_keys self) self in
    if _is_hotkey_pressed s1 then
      if negb (hotkey_active self) then
        if Qle_bool (debounce_interval self) (now - last_hotkey_time self)
        then (PyNone, set_last_hotkey_time now (set_hotkey_active true s1),
              [hotkey_pressed])
        else (PyNone, s1, [])
      else (PyNone, s1, [])
    else (PyNone, set_hotkey_active false s1, []).
Proof.
  unfold _on_key_down, mbind, M_bind, mret, M_ret, attr, assign, emit; simpl.
  destruct (_is_hotkey_pressed _); simpl; [|reflexivity].
  destruct (hotkey_active self); simpl; [reflexivity|].
  destruct (Qle_bool _ _); reflexivity.
Qed.

Lemma on_key_up_eq vk self :
  _on_key_up vk self =
    if bool_decide (vk ∈ pressed_keys self) then
      let s1 := set_pressed_keys (pressed_keys self ∖ {[vk]}) self in
      if _was_hotkey_key s1 vk
      then (PyNone, set_hotkey_active false s1, [hotkey_released])
      else (PyNone, s1, [])
    else (PyNone, self, []).
Proof.
  unfold _on_key_up, mbind, M_bind, mret, M_ret, attr, assign, emit; simpl.
  destruct (bool_decide _); simpl; [|reflexivity].
  destruct (_was_hotkey_key _ _); reflexivity.
Qed.

Lemma replay_cons e rest self :
  replay (e :: rest) self =
    (tt, state_of (replay rest (state_of (handle e self))),
     signals_of (handle e self)
       ++ signals_of (replay rest (state_of (handle e self)))).
Proof.
  simpl. unfold mbind, M_bind, state_of, signals_of.
  destruct (handle e self) as [[a s1] o1]; simpl.
  destruct (replay rest s1) as [[[] s2] o2]; reflexivity.
Qed.

Lemma state_of_replay_cons e rest self :
  state_of (replay (e :: rest) self)
  = state_of (replay rest (state_of (handle e self))).
Proof. by rewrite replay_cons. Qed.

Lemma signals_of_replay_cons e rest self :
  signals_of (replay (e :: rest) self)
  = signals_of (handle e self)
      ++ signals_of (replay rest (state_of (handle e self))).
Proof. by rewrite replay_cons. Qed.

Lemma state_of_replay_app evs1 evs2 self :
  state_of (replay (evs1 ++ evs2) self)
  = state_of (replay evs2 (state_of (replay evs1 self))).
Proof.
  revert self. induction evs1 as [|e evs1 IH]; intros self; [reflexivity|].
  rewrite <- app_comm_cons, !state_of_replay_cons. apply IH.
Qed.

Lemma signals_of_replay_app evs1 evs2 self :
  signals_of (replay (evs1 ++ evs2) self)
  = signals_of (replay evs1 self)
      ++ signals_of (replay evs2 (state_of (replay evs1 self))).
Proof.
  revert self. induction evs1 as [|e evs1 IH]; intros self; [reflexivity|].
  rewrite <- app_comm_cons, !signals_of_replay_cons, state_of_replay_cons.
  rewrite IH. by rewrite app_assoc.
Qed.

Lemma is_hotkey_pressed_iff self :
  _is_hotkey_pressed self = true
  ↔ isSatisfied (hotkey_config self) (pressed_keys self).
Proof.
  unfold _is_hotkey_pressed, isSatisfied, resolved_key.
  rewrite !andb_true_iff.
  destruct (cfg_ctrl _), (cfg_shift _), (cfg_alt _);
    destruct (key_mapping !! _) as [code|];
    try destruct (bool_decide (len _ = 1) && isalpha _);
    rewrite ?orb_true_iff, ?bool_decide_eq_true;
    (split;
     [ intros [[[Hc Hs] Ha] Hk]; repeat split; try (intros _; assumption);
       try discriminate; eauto
     | intros (Hc & Hs & Ha & code' & Hr & Hin); repeat split;
       try (by (apply Hc || apply Hs || apply Ha));
       try congruence ]).
Qed.

Lemma isSatisfied_mono cfg (S S' : gset Z) :
  S ⊆ S' → isSatisfied cfg S → isSatisfied cfg S'.
Proof.
  unfold isSatisfied. intros HS (Hc & Hs & Ha & code & Hr & Hin).
  repeat split; [set_solver..|]. exists code. set_solver.
Qed.

Lemma is_hotkey_pressed_mono self self' :
  hotkey_config self = hotkey_config self' →
  pressed_keys self ⊆ pressed_keys self' →
  _is_hotkey_pressed self = true → _is_hotkey_pressed self' = true.
Proof.
  intros Hcfg Hsub. rewrite !is_hotkey_pressed_iff, <- Hcfg.
  by apply isSatisfied_mono.
Qed.

Lemma is_hotkey_pressed_ext self self' :
  hotkey_config self = hotkey_config self' →
  pressed_keys self = pressed_keys self' →
  _is_hotkey_pressed self = _is_hotkey_pressed self'.
Proof.
  intros Hcfg Hks. unfold _is_hotkey_pressed. by rewrite Hcfg, Hks.
Qed.

(** What a handler leaves alone. *)
Lemma handle_frame e self :
  hotkey_config (state_of (handle e self)) = hotkey_config self ∧
  debounce_interval (state_of (handle e self)) = debounce_interval self ∧
  is_running (state_of (handle e self)) = is_running self ∧
  hook_id (state_of (handle e self)) = hook_id self.
Proof.
  destruct e as [now vk|vk]; simpl.
  - rewrite on_key_down_eq; simpl.
    destruct (_is_hotkey_pressed _); [|done].
    destruct (negb _); [|done]. by destruct (Qle_bool _ _).
  - rewrite on_key_up_eq; simpl.
    destruct (bool_decide _); [|done]. by destruct (_was_hotkey_key _ _).
Qed.

Lemma handle_pressed e self :
  pressed_keys (state_of (handle e self)) =
    match e with
    | KeyDown _ vk => {[vk]} ∪ pressed_keys self
    | KeyUp vk => pressed_keys self ∖ {[vk]}
    end.
Proof.
  destruct e as [now vk|vk]; simpl.
  - rewrite on_key_down_eq; simpl.
    destruct (_is_hotkey_pressed _); [|done].
    destruct (negb _); [|done]. by destruct (Qle_bool _ _).
  - rewrite on_key_up_eq; simpl.
    destruct (bool_decide_reflect (vk ∈ pressed_keys self)) as [Hin|Hout].
    + by destruct (_was_hotkey_key _ _).
    + unfold state_of; simpl. set_solver.
Qed.

Lemma replay_frame evs self :
  hotkey_config (state_of (replay evs self)) = hotkey_config self ∧
  debounce_interval (state_of (replay evs self)) = debounce_interval self ∧
  is_running (state_of (replay evs self)) = is_running self ∧
  hook_id (state_of (replay evs self)) = hook_id self.
Proof.
  revert self. induction evs as [|e evs IH]; intros self; [done|].
  rewrite state_of_replay_cons.
  destruct (IH (state_of (handle e self))) as (-> & -> & -> & ->).
  apply handle_frame.
Qed.

Lemma replay_pressed evs self :
  pressed_keys (state_of (replay evs self)) = net_keys evs (pressed_keys self).
Proof.
  revert self. induction evs as [|e evs IH]; intros self; [done|].
  rewrite state_of_replay_cons, IH, handle_pressed. by destruct e.
Qed.

Lemma net_keys_last_transition evs (down : gset Z) k :
  k ∈ net_keys evs down ↔
    match last_transition k evs with
    | Some d => d = true
    | None => k ∈ down
    end.
Proof.
  revert down. induction evs as [|e evs IH]; intros down; [done|].
  simpl. destruct e as [now vk|vk]; rewrite IH;
    destruct (last_transition k evs) as [d|]; try done;
    case_bool_decide; set_solver.
Qed.

Lemma was_hotkey_key_ext self self' vk :
  hotkey_config self = hotkey_config self' →
  _was_hotkey_key self vk = _was_hotkey_key self' vk.
Proof. intros Hcfg. unfold _was_hotkey_key. by rewrite Hcfg. Qed.

Lemma on_key_up_signals self vk :
  signals_of (_on_key_up vk self) =
    if bool_decide (vk ∈ pressed_keys self) && _was_hotkey_key self vk
    then [hotkey_released] else [].
Proof.
  rewrite on_key_up_eq. destruct (bool_decide _); simpl; [|done].
  rewrite (was_hotkey_key_ext _ self) by done.
  by destruct (_was_hotkey_key self vk).
Qed.

Lemma on_key_up_active self vk :
  hotkey_active (state_of (_on_key_up vk self)) =
    if bool_decide (vk ∈ pressed_keys self) && _was_hotkey_key self vk
    then false else hotkey_active self.
Proof.
  rewrite on_key_up_eq. destruct (bool_decide _); simpl; [|done].
  rewrite (was_hotkey_key_ext _ self) by done.
  by destruct (_was_hotkey_key self vk).
Qed.

Lemma on_key_down_result now vk self :
  result_of (_on_key_down now vk self) = PyNone.
Proof.
  rewrite on_key_down_eq; simpl.
  destruct (_is_hotkey_pressed _); [|done].
  destruct (negb _); [|done]. by destruct (Qle_bool _ _).
Qed.

Lemma on_key_up_result vk self :
  result_of (_on_key_up vk self) = PyNone.
Proof.
  rewrite on_key_up_eq.
  destruct (bool_decide _); simpl; [|done]. by destruct (_was_hotkey_key _ _).
Qed.

Lemma on_key_down_signals now vk self :
  signals_of (_on_key_down now vk self) =
    if _is_hotkey_pressed (state_of (_on_key_down now vk self))
       && negb (hotkey_active self)
       && Qle_bool (debounce_interval self) (now - last_hotkey_time self)
    then [hotkey_pressed] else [].
Proof.
  pose proof (handle_frame (KeyDown now vk) self) as (Hcfg & _).
  pose proof (handle_pressed (KeyDown now vk) self) as Hks.
  simpl in Hcfg, Hks.
  rewrite (is_hotkey_pressed_ext _
             (set_pressed_keys ({[vk]} ∪ pressed_keys self) self)) by done.
  rewrite on_key_down_eq; simpl.
  destruct (_is_hotkey_pressed _); [|done].
  destruct (negb _); [|done]. by destruct (Qle_bool _ _).
Qed.

Lemma on_key_down_matched now vk self :
  _is_hotkey_pressed (state_of (_on_key_down now vk self))
  = _is_hotkey_pressed (set_pressed_keys ({[vk]} ∪ pressed_keys self) self).
Proof.
  pose proof (handle_frame (KeyDown now vk) self) as (Hcfg & _).
  pose proof (handle_pressed (KeyDown now vk) self) as Hks.
  by apply is_hotkey_pressed_ext.
Qed.

Lemma on_key_down_active now vk self :
  hotkey_active (state_of (_on_key_down now vk self)) =
    _is_hotkey_pressed (state_of (_on_key_down now vk self))
    && (hotkey_active self
        || Qle_bool (debounce_interval self) (now - last_hotkey_time self)).
Proof.
  rewrite on_key_down_matched, on_key_down_eq; simpl.
  destruct (_is_hotkey_pressed _); [|done].
  destruct (hotkey_active self) eqn:Hact; simpl; [done|].
  by destruct (Qle_bool _ _).
Qed.

Lemma on_key_down_last now vk self :
  last_hotkey_time (state_of (_on_key_down now vk self)) =
    if _is_hotkey_pressed (state_of (_on_key_down now vk self))
       && negb (hotkey_active self)
       && Qle_bool (debounce_interval self) (now - last_hotkey_time self)
    then now else last_hotkey_time self.
Proof.
  rewrite on_key_down_matched, on_key_down_eq; simpl.
  destruct (_is_hotkey_pressed _); [|done].
  destruct (negb _); [|done]. by destruct (Qle_bool _ _).
Qed.

Lemma on_key_up_last vk self :
  last_hotkey_time (state_of (_on_key_up vk self)) = last_hotkey_time self.
Proof.
  rewrite on_key_up_eq.
  destruct (bool_decide _); simpl; [|done]. by destruct (_was_hotkey_key _ _).
Qed.

(** ** Pressed keys *)

(** C4.  Replayed from an empty pressed-key set, a stream of key
    transitions leaves in [pressed_keys] the net set of keys that are down:
    a code is in the set exactly when its last transition in the stream
    was a key-down.  A key-up of a code that is not in [pressed_keys]
    changes nothing and emits nothing. *)
Theorem pressed_keys_is_net_set (self : listener) (evs : list key_event) :
  pressed_keys self = ∅ →
  pressed_keys (state_of (replay evs self)) = net_keys evs ∅ ∧
  (∀ k, k ∈ pressed_keys (state_of (replay evs self))
        ↔ last_transition k evs = Some true) ∧
  (∀ (s : listener) vk,
      vk ∉ pressed_keys s → _on_key_up vk s = (PyNone, s, [])).
Proof.
  intros Hempty. rewrite replay_pressed, Hempty. split; [done|]. split.
  - intros k. rewrite net_keys_last_transition.
    destruct (last_transition k evs) as [d|].
    + split; [by intros ->|congruence].
    + split; [set_solver|done].
  - intros s vk Hout. rewrite on_key_up_eq.
    by rewrite bool_decide_eq_false_2.
Qed.

Lemma pressed_keys_is_net_set_witness :
  let self := __init__ None in
  let evs := [KeyUp 65; KeyDown 100 win32con.VK_F12; KeyDown 101 65; KeyUp 65;
              KeyDown 102 66] in
  pressed_keys self = ∅ ∧
  pressed_keys (state_of (replay evs self)) = net_keys evs ∅ ∧
  (66 ∈ pressed_keys (state_of (replay evs self))
   ↔ last_transition 66 evs = Some true).
Proof.
  intros self evs.
  destruct (pressed_keys_is_net_set self evs eq_refl) as (H1 & H2 & _).
  split; [reflexivity|]. split; [exact H1|exact (H2 66)].
Defined.

(** ** The combination predicate *)

(** C10.  The combination predicate is monotone in the pressed-key set, so
    a key-down never takes it from true to false, and [hotkey_released] is
    never emitted by the key-down handler: only a key-up can emit it. *)
Theorem predicate_monotone_in_pressed_keys :
  (∀ self self',
      hotkey_config self = hotkey_config self' →
      pressed_keys self ⊆ pressed_keys self' →
      _is_hotkey_pressed self = true → _is_hotkey_pressed self' = true) ∧
  (∀ now vk self,
      _is_hotkey_pressed self = true →
      _is_hotkey_pressed (state_of (_on_key_down now vk self)) = true) ∧
  (∀ now vk self, hotkey_released ∉ signals_of (_on_key_down now vk self)) ∧
  (∀ evs self e,
      hotkey_released ∈ signals_of (handle e (state_of (replay evs self))) →
      ∃ vk, e = KeyUp vk).
Proof.
  split; [exact is_hotkey_pressed_mono|]. split; [|split].
  - intros now vk self Hp.
    pose proof (handle_frame (KeyDown now vk) self) as (Hcfg & _).
    pose proof (handle_pressed (KeyDown now vk) self) as Hks.
    simpl in Hcfg, Hks.
    apply (is_hotkey_pressed_mono self); [done| |done].
    rewrite Hks. apply union_subseteq_r.
  - intros now vk self. rewrite on_key_down_signals.
    destruct (_ && _ && _); [|apply not_elem_of_nil].
    intros Hin. apply list_elem_of_singleton in Hin. discriminate.
  - intros evs self [now vk|vk] Hin; [|by exists vk].
    simpl in Hin. rewrite on_key_down_signals in Hin.
    destruct (_ && _ && _).
    + apply list_elem_of_singleton in Hin. discriminate.
    + by apply not_elem_of_nil in Hin.
Qed.

Lemma predicate_monotone_in_pressed_keys_witness :
  let s0 := __init__ None in
  let s := state_of (replay [KeyDown 100 win32con.VK_LCONTROL;
                             KeyDown 101 win32con.VK_RSHIFT;
                             KeyDown 102 win32con.VK_F12] s0) in
  let s' := state_of (_on_key_down 103 65 s) in
  (hotkey_config s = hotkey_config s' ∧
   pressed_keys s ⊆ pressed_keys s' ∧
   _is_hotkey_pressed s = true) ∧
  _is_hotkey_pressed s' = true ∧
  _is_hotkey_pressed (state_of (_on_key_down 103 65 s)) = true.
Proof.
  intros s0 s s'.
  assert (Hcfg : hotkey_config s = hotkey_config s') by reflexivity.
  assert (Hsub : pressed_keys s ⊆ pressed_keys s').
  { apply (bool_decide_unpack _). vm_compute. exact I. }
  assert (Hp : _is_hotkey_pressed s = true) by (vm_compute; reflexivity).
  split; [exact (conj Hcfg (conj Hsub Hp))|].
  destruct predicate_monotone_in_pressed_keys as (Hmono & Hdown & _).
  split; [exact (Hmono s s' Hcfg Hsub Hp)|exact (Hdown 103%Q 65 s Hp)].
Defined.

(** ** What the handlers do with the pressed keys and the predicate *)

(** C9, as the code has it.  [_on_key_down] adds the code to
    [pressed_keys] and recomputes the combination predicate, which holds
    exactly when every requested modifier group and the main key are
    present; it acts on the predicate itself (the active flag is set only
    while the predicate holds, and [hotkey_pressed] is emitted only then).
    [_on_key_up] removes the code and emits according to
    [_was_hotkey_key], without recomputing the predicate.  Both handlers
    return [None]. *)
Theorem handlers_update_pressed_keys (now : Q) (vk : Z) (self : listener) :
  pressed_keys (state_of (_on_key_down now vk self))
    = {[vk]} ∪ pressed_keys self ∧
  pressed_keys (state_of (_on_key_up vk self))
    = pressed_keys self ∖ {[vk]} ∧
  result_of (_on_key_down now vk self) = PyNone ∧
  result_of (_on_key_up vk self) = PyNone ∧
  (_is_hotkey_pressed self = true
   ↔ isSatisfied (hotkey_config self) (pressed_keys self)) ∧
  hotkey_active (state_of (_on_key_down now vk self))
    = _is_hotkey_pressed (state_of (_on_key_down now vk self))
      && (hotkey_active self
          || Qle_bool (debounce_interval self) (now - last_hotkey_time self)) ∧
  signals_of (_on_key_down now vk self)
    = (if _is_hotkey_pressed (state_of (_on_key_down now vk self))
          && negb (hotkey_active self)
          && Qle_bool (debounce_interval self) (now - last_hotkey_time self)
       then [hotkey_pressed] else []) ∧
  signals_of (_on_key_up vk self)
    = (if bool_decide (vk ∈ pressed_keys self) && _was_hotkey_key self vk
       then [hotkey_released] else []).
Proof.
  split; [exact (handle_pressed (KeyDown now vk) self)|].
  split; [exact (handle_pressed (KeyUp vk) self)|].
  split; [apply on_key_down_result|].
  split; [apply on_key_up_result|].
  split; [apply is_hotkey_pressed_iff|].
  split; [apply on_key_down_active|].
  split; [apply on_key_down_signals|apply on_key_up_signals].
Qed.

Lemma handlers_update_pressed_keys_witness :
  let s := state_of (replay [KeyDown 100 win32con.VK_LCONTROL;
                             KeyDown 101 win32con.VK_LSHIFT] (__init__ None)) in
  pressed_keys (state_of (_on_key_down 102 win32con.VK_F12 s))
    = {[win32con.VK_F12]} ∪ pressed_keys s ∧
  result_of (_on_key_down 102 win32con.VK_F12 s) = PyNone.
Proof.
  intros s.
  destruct (handlers_update_pressed_keys 102%Q win32con.VK_F12 s)
    as (H1 & _ & H3 & _).
  split; [exact H1|exact H3].
Defined.

(** C9 as stated fails: the call that completes the combination makes the
    predicate true and still returns [None], not the boolean; and a key-up
    that leaves the predicate true still emits [hotkey_released]. *)
Lemma handlers_do_not_return_predicate :
  let s := state_of (replay [KeyDown 100 win32con.VK_LCONTROL;
                             KeyDown 101 win32con.VK_RCONTROL;
                             KeyDown 102 win32con.VK_LSHIFT] (__init__ None)) in
  let r := _on_key_down 103 win32con.VK_F12 s in
  let r' := _on_key_up win32con.VK_RCONTROL (state_of r) in
  _is_hotkey_pressed (state_of r) = true ∧
  result_of r ≠ PyBool (_is_hotkey_pressed (state_of r)) ∧
  _is_hotkey_pressed (state_of r') = true ∧
  result_of r' ≠ PyBool (_is_hotkey_pressed (state_of r')) ∧
  signals_of r' = [hotkey_released].
Proof.
  intros s r r'.
  assert (H1 : _is_hotkey_pressed (state_of r) = true) by (vm_compute; reflexivity).
  assert (H2 : _is_hotkey_pressed (state_of r') = true) by (vm_compute; reflexivity).
  split; [exact H1|]. split.
  { unfold r. rewrite on_key_down_result. discriminate. }
  split; [exact H2|]. split.
  { unfold r'. rewrite on_key_up_result. discriminate. }
  vm_compute. reflexivity.
Qed.

(** ** Releasing the combination *)

(** C2, as the code has it.  A key-up emits [hotkey_released] exactly when
    the released code was in [pressed_keys] and is a key of the configured
    combination, whatever the predicate and the active flag are; otherwise
    it emits nothing.  With the default configuration, pressing LCTRL,
    LSHIFT, F12 emits one [hotkey_pressed]; releasing F12 emits one
    [hotkey_released], and releasing LCTRL and then LSHIFT emits one more
    each. *)
Theorem key_up_emits_for_combination_keys :
  (∀ self vk,
      signals_of (_on_key_up vk self)
      = if bool_decide (vk ∈ pressed_keys self) && _was_hotkey_key self vk
        then [hotkey_released] else []) ∧
  let s0 := __init__ (Some (Config true true false (Some "f12"%string))) in
  let press := [KeyDown 100 win32con.VK_LCONTROL;
                KeyDown 101 win32con.VK_LSHIFT;
                KeyDown 102 win32con.VK_F12] in
  let s3 := state_of (replay press s0) in
  let s4 := state_of (_on_key_up win32con.VK_F12 s3) in
  let s5 := state_of (_on_key_up win32con.VK_LCONTROL s4) in
  signals_of (replay press s0) = [hotkey_pressed] ∧
  signals_of (_on_key_up win32con.VK_F12 s3) = [hotkey_released] ∧
  signals_of (_on_key_up win32con.VK_LCONTROL s4) = [hotkey_released] ∧
  signals_of (_on_key_up win32con.VK_LSHIFT s5) = [hotkey_released].
Proof.
  split; [exact on_key_up_signals|].
  repeat split; vm_compute; reflexivity.
Qed.

(** C2 as stated fails: after F12 is released the predicate is false and
    the active flag is false, and releasing LCTRL and LSHIFT still emits. *)
Lemma key_up_after_release_still_emits :
  let s0 := __init__ (Some (Config true true false (Some "f12"%string))) in
  let s4 := state_of (replay [KeyDown 100 win32con.VK_LCONTROL;
                              KeyDown 101 win32con.VK_LSHIFT;
                              KeyDown 102 win32con.VK_F12;
                              KeyUp win32con.VK_F12] s0) in
  _is_hotkey_pressed s4 = false ∧
  hotkey_active s4 = false ∧
  signals_of (_on_key_up win32con.VK_LCONTROL s4) ≠ [] ∧
  signals_of (replay [KeyUp win32con.VK_LCONTROL; KeyUp win32con.VK_LSHIFT] s4)
    = [hotkey_released; hotkey_released].
Proof.
  intros s0 s4.
  split; [vm_compute; reflexivity|]. split; [vm_compute; reflexivity|].
  split; [|vm_compute; reflexivity].
  assert (H : signals_of (_on_key_up win32con.VK_LCONTROL s4) = [hotkey_released])
    by (vm_compute; reflexivity).
  rewrite H. discriminate.
Qed.

(** ** Debounce *)

Lemma on_key_down_emits now vk self :
  hotkey_pressed ∈ signals_of (_on_key_down now vk self) →
  signals_of (_on_key_down now vk self) = [hotkey_pressed] ∧
  (debounce_interval self <= now - last_hotkey_time self)%Q ∧
  hotkey_active self = false ∧
  _is_hotkey_pressed (state_of (_on_key_down now vk self)) = true ∧
  last_hotkey_time (state_of (_on_key_down now vk self)) = now ∧
  hotkey_active (state_of (_on_key_down now vk self)) = true.
Proof.
  rewrite on_key_down_last, on_key_down_active, on_key_down_signals.
  destruct (_is_hotkey_pressed _); simpl;
    [|by intros ?%not_elem_of_nil].
  destruct (hotkey_active self); simpl; [by intros ?%not_elem_of_nil|].
  destruct (Qle_bool _ _) eqn:Hle; [|by intros ?%not_elem_of_nil].
  intros _. by apply Qle_bool_iff in Hle.
Qed.

Lemma on_key_down_silent now vk self :
  hotkey_pressed ∉ signals_of (_on_key_down now vk self) →
  signals_of (_on_key_down now vk self) = [] ∧
  last_hotkey_time (state_of (_on_key_down now vk self))
    = last_hotkey_time self.
Proof.
  rewrite on_key_down_last, on_key_down_signals.
  destruct (_ && _ && _); [|done].
  intros []. apply list_elem_of_singleton. reflexivity.
Qed.

Lemma activation_times_spaced evs self :
  spaced (debounce_interval self) (last_hotkey_time self)
         (activation_times evs self).
Proof.
  revert self. induction evs as [|e evs IH]; intros self; [exact I|].
  simpl. pose proof (handle_frame e self) as (_ & Hd & _).
  destruct e as [now vk|vk]; simpl in *.
  - pose proof (IH (state_of (_on_key_down now vk self))) as Hrest.
    rewrite Hd in Hrest. case_bool_decide as Hin; simpl.
    + apply on_key_down_emits in Hin as (_ & Hle & _ & _ & Hlast & _).
      split; [exact Hle|]. by rewrite Hlast in Hrest.
    + apply on_key_down_silent in Hin as (_ & Hlast).
      by rewrite Hlast in Hrest.
  - pose proof (IH (state_of (_on_key_up vk self))) as Hrest.
    by rewrite Hd, on_key_up_last in Hrest.
Qed.

Lemma spaced_after d last ts j tj :
  (0 <= d)%Q → spaced d last ts → ts !! j = Some tj → (d <= tj - last)%Q.
Proof.
  intros Hd. revert last j. induction ts as [|t ts IH]; intros last j; [done|].
  intros [Ht Hts]. destruct j as [|j]; simpl.
  - by intros [= <-].
  - intros Hj. pose proof (IH t j Hts Hj). lra.
Qed.

Lemma spaced_lookup d last ts i j ti tj :
  (0 <= d)%Q → spaced d last ts → (i < j)%nat →
  ts !! i = Some ti → ts !! j = Some tj → (d <= tj - ti)%Q.
Proof.
  intros Hd. revert last i j. induction ts as [|t ts IH]; intros last i j; [done|].
  intros [Ht Hts] Hij. destruct j as [|j]; [lia|].
  destruct i as [|i]; simpl.
  - intros [= <-] Hj. by apply (spaced_after d t ts j).
  - apply (IH t); [done|lia].
Qed.

Lemma activations_app sigs1 sigs2 :
  activations (sigs1 ++ sigs2) = (activations sigs1 + activations sigs2)%nat.
Proof. unfold activations. by rewrite filter_app, length_app. Qed.

Lemma activations_zero sigs :
  hotkey_pressed ∉ sigs → activations sigs = 0%nat.
Proof.
  unfold activations. induction sigs as [|x sigs IH]; [done|].
  intros Hout. apply not_elem_of_cons in Hout as [Hx Hout].
  rewrite filter_cons_False by congruence. by apply IH.
Qed.

Lemma activation_times_length evs self :
  length (activation_times evs self)
  = activations (signals_of (replay evs self)).
Proof.
  revert self. induction evs as [|e evs IH]; intros self; [done|].
  rewrite signals_of_replay_cons, activations_app. simpl.
  rewrite length_app, IH. f_equal.
  destruct e as [now vk|vk]; simpl.
  - case_bool_decide as Hin.
    + apply on_key_down_emits in Hin as (-> & _). done.
    + by rewrite activations_zero.
  - rewrite on_key_up_signals. by destruct (_ && _).
Qed.

Lemma window_no_activation rest self :
  Forall (within_window (last_hotkey_time self) (debounce_interval self)) rest →
  hotkey_pressed ∉ signals_of (replay rest self).
Proof.
  revert self. induction rest as [|e rest IH]; intros self Hall.
  { apply not_elem_of_nil. }
  apply Forall_cons in Hall as [He Hall].
  rewrite signals_of_replay_cons. apply not_elem_of_app.
  pose proof (handle_frame e self) as (_ & Hd & _).
  destruct e as [now vk|vk]; simpl in *.
  - assert (Hout : hotkey_pressed ∉ signals_of (_on_key_down now vk self)).
    { intros Hin. apply on_key_down_emits in Hin as (_ & Hle & _).
      by apply Qlt_not_le in He. }
    split; [exact Hout|].
    apply on_key_down_silent in Hout as (_ & Hlast).
    apply IH. by rewrite Hd, Hlast.
  - split.
    + rewrite on_key_up_signals. destruct (_ && _).
      * intros Hin. apply list_elem_of_singleton in Hin. discriminate.
      * apply not_elem_of_nil.
    + apply IH. by rewrite Hd, on_key_up_last.
Qed.

(** C3.  With the debounce interval of 50 ms: a key-down that makes the
    predicate true while the active flag is false, less than 50 ms after
    the last activation, emits nothing and leaves the active flag and the
    last-activation time as they were; any two [hotkey_pressed] of a replay
    are at least 50 ms apart; and a key-down that makes the predicate true
    while the active flag is false, at least 50 ms after the last
    activation, emits [hotkey_pressed], and with any transitions after it
    whose key-downs come less than 50 ms later (the combination broken
    and made again, for one) that stays the only [hotkey_pressed]. *)
Theorem debounce_suppresses_reactivation (self : listener) :
  debounce_interval self = (5 # 100)%Q →
  (∀ now vk,
      _is_hotkey_pressed (state_of (_on_key_down now vk self)) = true →
      hotkey_active self = false →
      (now - last_hotkey_time self < 5 # 100)%Q →
      signals_of (_on_key_down now vk self) = [] ∧
      hotkey_active (state_of (_on_key_down now vk self)) = false ∧
      last_hotkey_time (state_of (_on_key_down now vk self))
        = last_hotkey_time self) ∧
  (∀ evs,
      length (activation_times evs self)
        = activations (signals_of (replay evs self)) ∧
      ∀ i j t1 t2,
        (i < j)%nat →
        activation_times evs self !! i = Some t1 →
        activation_times evs self !! j = Some t2 →
        (5 # 100 <= t2 - t1)%Q) ∧
  (∀ t1 vk1 rest,
      _is_hotkey_pressed (state_of (_on_key_down t1 vk1 self)) = true →
      hotkey_active self = false →
      (5 # 100 <= t1 - last_hotkey_time self)%Q →
      Forall (within_window t1 (5 # 100)) rest →
      signals_of (_on_key_down t1 vk1 self) = [hotkey_pressed] ∧
      (hotkey_pressed
       ∉ signals_of (replay rest (state_of (_on_key_down t1 vk1 self)))) ∧
      activations (signals_of (replay (KeyDown t1 vk1 :: rest) self)) = 1%nat).
Proof.
  intros Hd. split; [|split].
  - intros now vk Hp Hact Hlt.
    rewrite on_key_down_signals, on_key_down_active, on_key_down_last.
    rewrite Hp, Hact, Hd. simpl.
    destruct (Qle_bool _ _) eqn:Hle; [|done].
    apply Qle_bool_iff in Hle. by apply Qlt_not_le in Hlt.
  - intros evs. split; [apply activation_times_length|].
    intros i j t1 t2 Hij Hi Hj. rewrite <- Hd.
    apply (spaced_lookup _ (last_hotkey_time self)
                         (activation_times evs self) i j); try done.
    + rewrite Hd. done.
    + apply activation_times_spaced.
  - intros t1 vk1 rest Hp Hact Hle Hall.
    assert (Hsig : signals_of (_on_key_down t1 vk1 self) = [hotkey_pressed]).
    { rewrite on_key_down_signals, Hp, Hact, Hd. cbn [andb negb].
      by rewrite (proj2 (Qle_bool_iff _ _) Hle). }
    assert (Hlast : last_hotkey_time (state_of (_on_key_down t1 vk1 self))
                    = t1).
    { rewrite on_key_down_last, Hp, Hact, Hd. cbn [andb negb].
      by rewrite (proj2 (Qle_bool_iff _ _) Hle). }
    pose proof (handle_frame (KeyDown t1 vk1) self) as (_ & Hd' & _).
    change (handle (KeyDown t1 vk1)) with (_on_key_down t1 vk1) in Hd'.
    assert (Hrest : hotkey_pressed
                    ∉ signals_of
                        (replay rest (state_of (_on_key_down t1 vk1 self)))).
    { apply window_no_activation. by rewrite Hd', Hlast, Hd. }
    split; [exact Hsig|]. split; [exact Hrest|].
    rewrite signals_of_replay_cons, activations_app.
    change (handle (KeyDown t1 vk1)) with (_on_key_down t1 vk1).
    rewrite Hsig. by rewrite (activations_zero _ Hrest).
Qed.

Lemma debounce_suppresses_reactivation_witness :
  let held := state_of (replay [KeyDown 100 win32con.VK_LCONTROL;
                                KeyDown 100 win32con.VK_LSHIFT]
                               (__init__ None)) in
  let s := state_of (replay [KeyDown 100 win32con.VK_F12;
                             KeyUp win32con.VK_F12] held) in
  let bounce := _on_key_down (10002 # 100) win32con.VK_F12 s in
  let rest := [KeyUp win32con.VK_F12;
               KeyDown (10002 # 100) win32con.VK_F12] in
  debounce_interval s = (5 # 100)%Q ∧
  (_is_hotkey_pressed (state_of bounce) = true ∧
   hotkey_active s = false ∧
   ((10002 # 100) - last_hotkey_time s < 5 # 100)%Q) ∧
  (signals_of bounce = [] ∧
   hotkey_active (state_of bounce) = false ∧
   last_hotkey_time (state_of bounce) = last_hotkey_time s) ∧
  debounce_interval held = (5 # 100)%Q ∧
  (_is_hotkey_pressed (state_of (_on_key_down 100 win32con.VK_F12 held))
   = true ∧
   hotkey_active held = false ∧
   (5 # 100 <= 100 - last_hotkey_time held)%Q ∧
   Forall (within_window 100 (5 # 100)) rest) ∧
  activations
    (signals_of (replay (KeyDown 100 win32con.VK_F12 :: rest) held)) = 1%nat.
Proof.
  intros held s bounce rest.
  assert (Hd : debounce_interval s = (5 # 100)%Q) by reflexivity.
  assert (Hp : _is_hotkey_pressed (state_of bounce) = true)
    by (vm_compute; reflexivity).
  assert (Hact : hotkey_active s = false) by (vm_compute; reflexivity).
  assert (Hlt : ((10002 # 100) - last_hotkey_time s < 5 # 100)%Q)
    by (vm_compute; reflexivity).
  assert (Hd0 : debounce_interval held = (5 # 100)%Q) by reflexivity.
  assert (Hp0 : _is_hotkey_pressed
                  (state_of (_on_key_down 100 win32con.VK_F12 held)) = true)
    by (vm_compute; reflexivity).
  assert (Hact0 : hotkey_active held = false) by (vm_compute; reflexivity).
  assert (Hle0 : (5 # 100 <= 100 - last_hotkey_time held)%Q)
    by (vm_compute; discriminate).
  assert (Hrest : Forall (within_window 100 (5 # 100)) rest).
  { repeat constructor. }
  split; [exact Hd|]. split; [exact (conj Hp (conj Hact Hlt))|].
  destruct (debounce_suppresses_reactivation s Hd) as (Hsupp & _).
  split; [exact (Hsupp (10002 # 100)%Q win32con.VK_F12 Hp Hact Hlt)|].
  split; [exact Hd0|].
  split; [exact (conj Hp0 (conj Hact0 (conj Hle0 Hrest)))|].
  destruct (debounce_suppresses_reactivation held Hd0) as (_ & _ & Hone).
  exact (proj2 (proj2 (Hone 100%Q win32con.VK_F12 rest Hp0 Hact0 Hle0 Hrest))).
Defined.

(** ** One activation per press of the combination *)

Lemma key_downs_app pre post :
  key_downs (pre ++ post) = key_downs pre ++ key_downs post.
Proof. apply map_app. Qed.

Lemma net_keys_key_downs presses (down : gset Z) :
  net_keys (key_downs presses) down = list_to_set presses.*2 ∪ down.
Proof.
  revert down. induction presses as [|[t vk] presses IH]; intros down; simpl.
  - set_solver.
  - rewrite IH. set_solver.
Qed.

(** While the combination is held and active, further key-downs (the
    autorepeat of a held key, or any other key) emit nothing. *)
Lemma key_downs_while_active presses self :
  _is_hotkey_pressed self = true → hotkey_active self = true →
  signals_of (replay (key_downs presses) self) = [] ∧
  _is_hotkey_pressed (state_of (replay (key_downs presses) self)) = true ∧
  hotkey_active (state_of (replay (key_downs presses) self)) = true.
Proof.
  revert self. induction presses as [|[t vk] presses IH]; intros self Hp Hact.
  { done. }
  simpl key_downs. rewrite signals_of_replay_cons, state_of_replay_cons.
  change (handle (KeyDown t vk)) with (_on_key_down t vk).
  assert (Hp' : _is_hotkey_pressed (state_of (_on_key_down t vk self)) = true).
  { rewrite on_key_down_matched.
    apply (is_hotkey_pressed_mono self); [done| |done].
    simpl. apply union_subseteq_r. }
  assert (Hact' : hotkey_active (state_of (_on_key_down t vk self)) = true).
  { by rewrite on_key_down_active, Hp', Hact. }
  rewrite on_key_down_signals, Hp', Hact. simpl.
  by apply IH.
Qed.

Lemma key_downs_before_completion presses self :
  hotkey_active self = false →
  _is_hotkey_pressed self = false →
  _is_hotkey_pressed (state_of (replay (key_downs presses) self)) = true →
  ∃ pre now vk post,
    presses = pre ++ (now, vk) :: post ∧
    _is_hotkey_pressed (state_of (replay (key_downs pre) self)) = false ∧
    signals_of (replay (key_downs pre) self) = [] ∧
    hotkey_active (state_of (replay (key_downs pre) self)) = false ∧
    last_hotkey_time (state_of (replay (key_downs pre) self))
    = last_hotkey_time self ∧
    _is_hotkey_pressed
      (state_of (_on_key_down now vk
                   (state_of (replay (key_downs pre) self)))) = true.
Proof.
  revert self. induction presses as [|[t vk] presses IH];
    intros self Hact Hp Hend.
  { change (_is_hotkey_pressed self = true) in Hend. congruence. }
  simpl key_downs in Hend. rewrite state_of_replay_cons in Hend.
  change (handle (KeyDown t vk)) with (_on_key_down t vk) in Hend.
  destruct (_is_hotkey_pressed (state_of (_on_key_down t vk self))) eqn:Hp1.
  - exists [], t, vk, presses.
    change (state_of (replay (key_downs []) self)) with self.
    change (signals_of (replay (key_downs []) self)) with (@nil signal).
    done.
  - assert (Hact1 : hotkey_active (state_of (_on_key_down t vk self)) = false).
    { by rewrite on_key_down_active, Hp1. }
    assert (Hsig : signals_of (_on_key_down t vk self) = []).
    { by rewrite on_key_down_signals, Hp1. }
    assert (Hlast : last_hotkey_time (state_of (_on_key_down t vk self))
                    = last_hotkey_time self).
    { by rewrite on_key_down_last, Hp1. }
    destruct (IH (state_of (_on_key_down t vk self)) Hact1 Hp1 Hend)
      as (pre & now & vk' & post & -> & Hpre & Hspre & Hapre & Hlpre & Hhit).
    exists ((t, vk) :: pre), now, vk', post. simpl key_downs.
    rewrite signals_of_replay_cons, state_of_replay_cons.
    change (handle (KeyDown t vk)) with (_on_key_down t vk).
    rewrite Hsig, Hlpre, Hlast. done.
Qed.

(** From the key-down that completes the combination on, with the hotkey
    not active: [hotkey_pressed] is emitted once, by the first key-down
    that is read at least the debounce interval after the last
    activation, and not at all when there is none. *)
Lemma key_downs_from_completion post now vk s :
  hotkey_active s = false →
  _is_hotkey_pressed (state_of (_on_key_down now vk s)) = true →
  signals_of (replay (key_downs ((now, vk) :: post)) s)
  = if existsb (outside_window (debounce_interval s) (last_hotkey_time s))
               ((now, vk) :: post)
    then [hotkey_pressed] else [].
Proof.
  revert now vk s. induction post as [|[t' vk'] post IH];
    intros now vk s Hact Hp;
    cbn [key_downs map existsb fst snd]; unfold outside_window at 1;
    cbn [fst]; rewrite signals_of_replay_cons;
    change (handle (KeyDown now vk)) with (_on_key_down now vk);
    rewrite on_key_down_signals, Hp, Hact; cbn [andb negb].
  - destruct (Qle_bool _ _); done.
  - pose proof (handle_frame (KeyDown now vk) s) as (_ & Hd & _).
    change (handle (KeyDown now vk)) with (_on_key_down now vk) in Hd.
    destruct (Qle_bool (debounce_interval s) (now - last_hotkey_time s))
      eqn:Hq; cbn [orb].
    + assert (Hact1 : hotkey_active (state_of (_on_key_down now vk s)) = true).
      { by rewrite on_key_down_active, Hp, Hact, Hq. }
      destruct (key_downs_while_active ((t', vk') :: post) _ Hp Hact1)
        as (Hnil & _).
      change (key_downs ((t', vk') :: post))
        with (KeyDown t' vk' :: map (λ p, KeyDown p.1 p.2) post) in Hnil.
      by rewrite Hnil.
    + assert (Hact1 : hotkey_active (state_of (_on_key_down now vk s)) = false).
      { by rewrite on_key_down_active, Hp, Hact, Hq. }
      assert (Hlast : last_hotkey_time (state_of (_on_key_down now vk s))
                      = last_hotkey_time s).
      { by rewrite on_key_down_last, Hp, Hact, Hq. }
      assert (Hp1 : _is_hotkey_pressed
                      (state_of (_on_key_down t' vk'
                                   (state_of (_on_key_down now vk s)))) = true).
      { rewrite on_key_down_matched.
        apply (is_hotkey_pressed_mono (state_of (_on_key_down now vk s)));
          [done| |done].
        cbn [pressed_keys set_pressed_keys]. apply union_subseteq_r. }
      pose proof (IH t' vk' _ Hact1 Hp1) as Hrest.
      rewrite Hd, Hlast in Hrest.
      change (key_downs ((t', vk') :: post))
        with (KeyDown t' vk' :: map (λ p, KeyDown p.1 p.2) post) in Hrest.
      rewrite Hrest. done.
Qed.

(** C1, as the code has it.  From a listener whose combination is neither
    held nor active, take a run of key-downs that ends with the
    combination held (no key-up in between).  Nothing is emitted before
    the key-down that completes the combination, and the whole run emits
    at most one [hotkey_pressed]: it is emitted by the first key-down,
    from the completing one on, that is read at least the debounce
    interval after the last activation, and by none when there is no
    such key-down.  So the completing key-down emits it, and the
    key-downs after it (autorepeat included) emit nothing, when it is
    read outside the debounce interval; read inside, it emits nothing
    and a later key-down, an autorepeat for one, emits in its place.
    Pressing the same codes in another order ends with the combination
    held too, and emits exactly one [hotkey_pressed] when all its
    key-downs are read outside the interval. *)
Theorem exactly_one_activation (self : listener) (presses : list (Q * Z)) :
  hotkey_active self = false →
  _is_hotkey_pressed self = false →
  _is_hotkey_pressed (state_of (replay (key_downs presses) self)) = true →
  (∃ pre now vk post,
      presses = pre ++ (now, vk) :: post ∧
      _is_hotkey_pressed (state_of (replay (key_downs pre) self)) = false ∧
      signals_of (replay (key_downs pre) self) = [] ∧
      _is_hotkey_pressed
        (state_of (_on_key_down now vk
                     (state_of (replay (key_downs pre) self)))) = true ∧
      signals_of (replay (key_downs presses) self)
      = (if existsb (outside_window (debounce_interval self)
                                    (last_hotkey_time self))
                    ((now, vk) :: post)
         then [hotkey_pressed] else []) ∧
      ((debounce_interval self <= now - last_hotkey_time self)%Q →
       signals_of (_on_key_down now vk (state_of (replay (key_downs pre) self)))
       = [hotkey_pressed] ∧
       signals_of
         (replay (key_downs post)
            (state_of (_on_key_down now vk
                         (state_of (replay (key_downs pre) self))))) = []) ∧
      ((now - last_hotkey_time self < debounce_interval self)%Q →
       signals_of (_on_key_down now vk (state_of (replay (key_downs pre) self)))
       = [])) ∧
  (activations (signals_of (replay (key_downs presses) self)) ≤ 1)%nat ∧
  (∀ presses',
      presses'.*2 ≡ₚ presses.*2 →
      _is_hotkey_pressed (state_of (replay (key_downs presses') self)) = true ∧
      (Forall (λ p, (debounce_interval self <= p.1 - last_hotkey_time self)%Q)
              presses' →
       signals_of (replay (key_downs presses') self) = [hotkey_pressed])).
Proof.
  intros Hact Hp Hend.
  assert (Hsplit : ∀ l,
    _is_hotkey_pressed (state_of (replay (key_downs l) self)) = true →
    ∃ pre now vk post,
      l = pre ++ (now, vk) :: post ∧
      _is_hotkey_pressed (state_of (replay (key_downs pre) self)) = false ∧
      signals_of (replay (key_downs pre) self) = [] ∧
      hotkey_active (state_of (replay (key_downs pre) self)) = false ∧
      last_hotkey_time (state_of (replay (key_downs pre) self))
      = last_hotkey_time self ∧
      _is_hotkey_pressed
        (state_of (_on_key_down now vk
                     (state_of (replay (key_downs pre) self)))) = true ∧
      signals_of (replay (key_downs l) self)
      = (if existsb (outside_window (debounce_interval self)
                                    (last_hotkey_time self))
                    ((now, vk) :: post)
         then [hotkey_pressed] else [])).
  { intros l Hlend.
    destruct (key_downs_before_completion l self Hact Hp Hlend)
      as (pre & now & vk & post & -> & Hpre & Hspre & Hapre & Hlpre & Hhit).
    exists pre, now, vk, post. repeat split; try done.
    rewrite key_downs_app, signals_of_replay_app, Hspre.
    rewrite (key_downs_from_completion post now vk _ Hapre Hhit), Hlpre.
    by destruct (replay_frame (key_downs pre) self) as (_ & -> & _). }
  destruct (Hsplit presses Hend)
    as (pre & now & vk & post & Heq & Hpre & Hspre & Hapre & Hlpre & Hhit
        & Hsig).
  pose proof (replay_frame (key_downs pre) self) as (_ & Hdpre & _).
  split; [|split].
  - exists pre, now, vk, post. repeat split; try done.
    + rewrite on_key_down_signals, Hhit, Hapre, Hdpre, Hlpre. cbn [andb negb].
      by rewrite (proj2 (Qle_bool_iff _ _) H).
    + apply key_downs_while_active; [done|].
      rewrite on_key_down_active, Hhit, Hapre, Hdpre, Hlpre. cbn [andb orb].
      by apply Qle_bool_iff.
    + intros Hlt.
      rewrite on_key_down_signals, Hhit, Hapre, Hdpre, Hlpre. cbn [andb negb].
      destruct (Qle_bool _ _) eqn:Hq; [|done].
      apply Qle_bool_iff in Hq. by apply Qlt_not_le in Hlt.
  - rewrite Hsig. destruct (existsb _ _); vm_compute; lia.
  - intros presses' Hperm.
    assert (Hend' : _is_hotkey_pressed
                      (state_of (replay (key_downs presses') self)) = true).
    { rewrite <- Hend. apply is_hotkey_pressed_ext.
      - destruct (replay_frame (key_downs presses') self) as (-> & _).
        by destruct (replay_frame (key_downs presses) self) as (-> & _).
      - rewrite !replay_pressed, !net_keys_key_downs. by rewrite Hperm. }
    split; [exact Hend'|]. intros Htimes.
    destruct (Hsplit presses' Hend')
      as (pre' & now' & vk' & post' & -> & _ & _ & _ & _ & _ & ->).
    apply Forall_app in Htimes as [_ Htimes].
    apply Forall_cons in Htimes as [Hnow _]. cbn [fst] in Hnow.
    cbn [existsb]. unfold outside_window at 1. cbn [fst].
    by rewrite (proj2 (Qle_bool_iff _ _) Hnow).
Qed.

Lemma exactly_one_activation_witness :
  let self := __init__ None in
  let presses : list (Q * Z) :=
    [(1000%Q, win32con.VK_F12); (1001%Q, win32con.VK_RSHIFT);
     (1002%Q, 65); (1003%Q, win32con.VK_LCONTROL);
     (1003.5%Q, win32con.VK_LCONTROL);
     (1004%Q, win32con.VK_LCONTROL)] in
  (hotkey_active self = false ∧
   _is_hotkey_pressed self = false ∧
   _is_hotkey_pressed (state_of (replay (key_downs presses) self)) = true) ∧
  (activations (signals_of (replay (key_downs presses) self)) ≤ 1)%nat ∧
  signals_of (replay (key_downs presses) self) = [hotkey_pressed].
Proof.
  intros self presses.
  assert (Hact : hotkey_active self = false) by reflexivity.
  assert (Hp : _is_hotkey_pressed self = false) by (vm_compute; reflexivity).
  assert (Hend : _is_hotkey_pressed
                   (state_of (replay (key_downs presses) self)) = true)
    by (vm_compute; reflexivity).
  assert (Htimes : Forall (λ p, (debounce_interval self
                                 <= p.1 - last_hotkey_time self)%Q) presses).
  { repeat constructor; vm_compute; discriminate. }
  split; [exact (conj Hact (conj Hp Hend))|].
  destruct (exactly_one_activation self presses Hact Hp Hend)
    as (_ & Hone & Hperm).
  split; [exact Hone|].
  exact (proj2 (Hperm presses (Permutation_refl _)) Htimes).
Defined.

(** C1 as stated fails.  Ctrl, Shift and F12 are pressed at 100 s (one
    [hotkey_pressed]) and F12 is released.  The F12 key-down read at
    100.02 s completes the combination again and emits nothing; its
    autorepeat read at 100.60 s emits [hotkey_pressed].  And when all
    three keys are released and pressed again within 50 ms of the
    activation, the run ends with the combination held and has emitted
    nothing. *)
Lemma completing_key_down_can_be_debounced :
  let pressed_once :=
    state_of (replay [KeyDown 100 win32con.VK_LCONTROL;
                      KeyDown 100 win32con.VK_LSHIFT;
                      KeyDown 100 win32con.VK_F12] (__init__ None)) in
  let s := state_of (_on_key_up win32con.VK_F12 pressed_once) in
  let idle := state_of (replay [KeyUp win32con.VK_F12;
                                KeyUp win32con.VK_LSHIFT;
                                KeyUp win32con.VK_LCONTROL] pressed_once) in
  let again : list (Q * Z) :=
    [((10001 # 100)%Q, win32con.VK_LSHIFT);
     ((10002 # 100)%Q, win32con.VK_F12);
     ((10003 # 100)%Q, win32con.VK_LCONTROL)] in
  (hotkey_active s = false ∧ _is_hotkey_pressed s = false) ∧
  _is_hotkey_pressed
    (state_of (_on_key_down (10002 # 100) win32con.VK_F12 s)) = true ∧
  signals_of (_on_key_down (10002 # 100) win32con.VK_F12 s) = [] ∧
  signals_of
    (_on_key_down (10060 # 100) win32con.VK_F12
       (state_of (_on_key_down (10002 # 100) win32con.VK_F12 s)))
  = [hotkey_pressed] ∧
  (hotkey_active idle = false ∧ _is_hotkey_pressed idle = false ∧
   pressed_keys idle = ∅) ∧
  _is_hotkey_pressed (state_of (replay (key_downs again) idle)) = true ∧
  signals_of (replay (key_downs again) idle) = [].
Proof.
  intros pressed_once s idle again.
  assert (Hks : pressed_keys idle = ∅).
  { apply (bool_decide_unpack _). vm_compute. exact I. }
  repeat split; try exact Hks; vm_compute; reflexivity.
Qed.

(** ** Key names that do not resolve *)

Lemma unresolved_never_pressed self :
  resolved_key (hotkey_config self) = None → _is_hotkey_pressed self = false.
Proof.
  intros Hnone. destruct (_is_hotkey_pressed self) eqn:Hp; [|done].
  apply is_hotkey_pressed_iff in Hp as (_ & _ & _ & code & Hsome & _).
  congruence.
Qed.

Lemma never_pressed_never_emits evs self :
  (∀ s, hotkey_config s = hotkey_config self → _is_hotkey_pressed s = false) →
  hotkey_pressed ∉ signals_of (replay evs self).
Proof.
  revert self. induction evs as [|e evs IH]; intros self Hnever.
  { apply not_elem_of_nil. }
  rewrite signals_of_replay_cons. apply not_elem_of_app.
  pose proof (handle_frame e self) as (Hcfg & _). split.
  - destruct e as [now vk|vk]; simpl.
    + intros Hin. apply on_key_down_emits in Hin as (_ & _ & _ & Hp & _).
      rewrite Hnever in Hp; [done|]. exact Hcfg.
    + rewrite on_key_up_signals. destruct (_ && _).
      * intros Hin. apply list_elem_of_singleton in Hin. discriminate.
      * apply not_elem_of_nil.
  - apply IH. intros s Hs. apply Hnever. by rewrite Hs.
Qed.

(** C5, as the code has it.  A key name that is neither in the table nor a
    single letter is accepted: [register_hotkey] stores the configuration
    and returns [True], the constructor stores it too, [start] goes
    through; the combination predicate is then false whatever keys are
    down, and no replay ever emits [hotkey_pressed]. *)
Theorem unresolved_key_is_accepted (cfg : config) :
  key_mapping !! config_key_name cfg = None →
  bool_decide (len (config_key_name cfg) = 1) && isalpha (config_key_name cfg)
    = false →
  (∀ self,
      register_hotkey cfg self
      = (PyBool true, set_hotkey_config cfg self, [])) ∧
  hotkey_config (__init__ (Some cfg)) = cfg ∧
  (∀ self,
      is_running self = false →
      result_of (start true (state_of (register_hotkey cfg self)))
      = PyBool true) ∧
  (∀ self, hotkey_config self = cfg → _is_hotkey_pressed self = false) ∧
  (∀ self evs,
      hotkey_config self = cfg →
      hotkey_pressed ∉ signals_of (replay evs self)).
Proof.
  intros Htable Hletter.
  assert (Hnone : resolved_key cfg = None).
  { unfold resolved_key. by rewrite Htable, Hletter. }
  assert (Hnever : ∀ self,
             hotkey_config self = cfg → _is_hotkey_pressed self = false).
  { intros self <-. by apply unresolved_never_pressed. }
  split; [done|]. split; [done|]. split.
  { intros self Hrun. unfold start, register_hotkey, mbind, M_bind, attr,
      assign, mret, M_ret, result_of, state_of. simpl. by rewrite Hrun. }
  split; [exact Hnever|].
  intros self evs Hcfg. apply never_pressed_never_emits.
  intros s Hs. apply Hnever. by rewrite Hs.
Qed.

Lemma unresolved_key_is_accepted_witness :
  let cfg := Config true true false (Some "ctrl+q"%string) in
  (key_mapping !! config_key_name cfg = None ∧
   bool_decide (len (config_key_name cfg) = 1)
     && isalpha (config_key_name cfg) = false) ∧
  register_hotkey cfg (__init__ None)
  = (PyBool true, set_hotkey_config cfg (__init__ None), []).
Proof.
  intros cfg.
  assert (H1 : key_mapping !! config_key_name cfg = None)
    by (vm_compute; reflexivity).
  assert (H2 : bool_decide (len (config_key_name cfg) = 1)
                 && isalpha (config_key_name cfg) = false)
    by (vm_compute; reflexivity).
  split; [exact (conj H1 H2)|].
  exact (proj1 (unresolved_key_is_accepted cfg H1 H2) (__init__ None)).
Defined.

(** C5 as stated fails: the name [foo] is not in the table and is not a
    single letter, and configuring it is not refused. *)
Lemma unresolved_key_not_rejected :
  let cfg := Config true true false (Some "foo"%string) in
  let r := register_hotkey cfg (__init__ None) in
  key_mapping !! config_key_name cfg = None ∧
  bool_decide (len (config_key_name cfg) = 1)
    && isalpha (config_key_name cfg) = false ∧
  result_of r = PyBool true ∧
  hotkey_config (state_of r) = cfg ∧
  result_of (start true (state_of r)) = PyBool true.
Proof. repeat split; vm_compute; reflexivity. Qed.

(** ** Life cycle *)

Lemma start_eq thread_started self :
  start thread_started self =
    if is_running self then (PyBool true, self, [])
    else if thread_started
         then (PyBool true, set_is_running true self, [])
         else (PyBool false, self, []).
Proof.
  unfold start, mbind, M_bind, attr, assign, mret, M_ret; simpl.
  destruct (is_running self); [done|]. by destruct thread_started.
Qed.

Lemma stop_eq self :
  stop self =
    if negb (is_running self) then (PyNone, self, [])
    else if hook_truthy (hook_id self)
         then (PyNone, set_hook_id None (set_is_running false self), [])
         else (PyNone, set_is_running false self, []).
Proof.
  unfold stop, mbind, M_bind, attr, assign, mret, M_ret; simpl.
  destruct (is_running self); simpl; [|done].
  by destruct (hook_truthy (hook_id self)).
Qed.

Lemma hook_proc_install_eq h self :
  _hook_proc_install h self
  = (negb (h =? 0), set_hook_id (Some h) self, []).
Proof.
  unfold _hook_proc_install, mbind, M_bind, attr, assign, mret, M_ret; simpl.
  by destruct (h =? 0).
Qed.

(** C6, as the code has it.  From a stopped listener, [start] returns
    [False] and leaves [is_running] false exactly when creating the hook
    thread raised; otherwise it returns [True] and sets [is_running],
    whatever [SetWindowsHookExW] returns in the thread.  The installation
    in the thread only records the handle (null on failure) and does not
    touch [is_running], in whichever order it runs with the assignment in
    [start]. *)
Theorem start_reports_thread_start_only
    (self : listener) (thread_started : bool) (handle_returned : Z) :
  is_running self = false →
  result_of (start thread_started self) = PyBool thread_started ∧
  is_running (state_of (start thread_started self)) = thread_started ∧
  (let r := _hook_proc_install handle_returned (state_of (start true self)) in
   result_of r = negb (handle_returned =? 0) ∧
   is_running (state_of r) = true ∧
   hook_id (state_of r) = Some handle_returned ∧
   state_of (start true (state_of (_hook_proc_install handle_returned self)))
   = state_of r).
Proof.
  intros Hrun. rewrite !start_eq, !hook_proc_install_eq, Hrun. simpl.
  rewrite ?Hrun. by destruct thread_started.
Qed.

Lemma start_reports_thread_start_only_witness :
  let self := __init__ None in
  is_running self = false ∧
  result_of (start true self) = PyBool true ∧
  is_running (state_of (start true self)) = true.
Proof.
  intros self. split; [reflexivity|].
  destruct (start_reports_thread_start_only self true 0 eq_refl)
    as (H1 & H2 & _).
  split; [exact H1|exact H2].
Defined.

(** C6 as stated fails: the hook installation returns a null handle, and
    [start] has returned [True] with [is_running] set. *)
Lemma start_succeeds_when_hook_fails :
  let self := __init__ None in
  let r := start true self in
  let installed := _hook_proc_install 0 (state_of r) in
  result_of installed = false ∧
  hook_truthy (hook_id (state_of installed)) = false ∧
  result_of r = PyBool true ∧
  result_of r ≠ PyBool false ∧
  is_running (state_of installed) = true.
Proof.
  repeat split; try (vm_compute; reflexivity).
  vm_compute. discriminate.
Qed.

(** C7, as the code has it.  [stop] clears [is_running] and the hook
    handle and nothing else; [start] sets [is_running] and nothing else.
    The pressed keys, the active flag and the last-activation time go
    through both unchanged; they are empty, false and zero only in a
    newly constructed listener. *)
Theorem stop_keeps_tracker_state (self : listener) (thread_started : bool) :
  pressed_keys (state_of (stop self)) = pressed_keys self ∧
  hotkey_active (state_of (stop self)) = hotkey_active self ∧
  last_hotkey_time (state_of (stop self)) = last_hotkey_time self ∧
  pressed_keys (state_of (start thread_started self)) = pressed_keys self ∧
  hotkey_active (state_of (start thread_started self)) = hotkey_active self ∧
  last_hotkey_time (state_of (start thread_started self))
    = last_hotkey_time self ∧
  is_running (state_of (stop self)) = false ∧
  hook_truthy (hook_id (state_of (stop self)))
    = hook_truthy (hook_id self) && negb (is_running self) ∧
  (∀ cfg,
      pressed_keys (__init__ cfg) = ∅ ∧
      hotkey_active (__init__ cfg) = false ∧
      last_hotkey_time (__init__ cfg) = 0%Q).
Proof.
  rewrite stop_eq, start_eq.
  destruct (is_running self) eqn:Hrun, (hook_truthy (hook_id self)) eqn:Hh,
    thread_started; simpl; rewrite ?Hrun, ?Hh; done.
Qed.

(** C7 as stated fails: LCTRL and LSHIFT recorded before [stop] are still
    in [pressed_keys] after [stop] and [start], and F12 alone then emits
    [hotkey_pressed], which it does not on a fresh listener. *)
Lemma stale_keys_survive_restart :
  let fresh := state_of (start true (__init__ None)) in
  let held := state_of (replay [KeyDown 100 win32con.VK_LCONTROL;
                                KeyDown 101 win32con.VK_LSHIFT] fresh) in
  let restarted := state_of (start true (state_of (stop held))) in
  pressed_keys (state_of (stop held)) ≠ ∅ ∧
  pressed_keys restarted
    = {[win32con.VK_LCONTROL; win32con.VK_LSHIFT]} ∧
  signals_of (_on_key_down 200 win32con.VK_F12 restarted) = [hotkey_pressed] ∧
  signals_of (_on_key_down 200 win32con.VK_F12 fresh) = [].
Proof.
  intros fresh held restarted.
  assert (Hks : pressed_keys restarted
                = {[win32con.VK_LCONTROL; win32con.VK_LSHIFT]}).
  { apply (bool_decide_unpack _). vm_compute. exact I. }
  split; [|split; [exact Hks|split; vm_compute; reflexivity]].
  change (pressed_keys (state_of (stop held))) with (pressed_keys restarted).
  rewrite Hks. intros Hempty.
  assert (Hin : win32con.VK_LSHIFT
                ∈ ({[win32con.VK_LCONTROL; win32con.VK_LSHIFT]} : gset Z))
    by set_solver.
  rewrite Hempty in Hin. by apply not_elem_of_empty in Hin.
Qed.

(** ** A modifier that is not requested *)

Lemma letter_upper_code c :
  is_upper_ascii c || is_lower_ascii c = true →
  65 ≤ ascii_code (upper_ascii c) ≤ 90.
Proof.
  intros Hc.
  assert (Hb : (65 <=? ascii_code (upper_ascii c))
               && (ascii_code (upper_ascii c) <=? 90) = true).
  { revert Hc.
    destruct c as [[] [] [] [] [] [] [] []]; vm_compute; congruence. }
  apply andb_true_iff in Hb as [H1 H2]. lia.
Qed.

Lemma key_mapping_codes name code :
  key_mapping !! name = Some code → 8 ≤ code ≤ 0x7B ∨ 0xBA ≤ code ≤ 0xDE.
Proof.
  intros Hsome. apply elem_of_list_to_map_2, list_elem_of_In in Hsome.
  assert (Hall : forallb (λ p : string * Z,
                            (8 <=? p.2) && (p.2 <=? 0x7B)
                            || (0xBA <=? p.2) && (p.2 <=? 0xDE))
                         key_mapping_items = true)
    by (vm_compute; reflexivity).
  rewrite forallb_forall in Hall. specialize (Hall (name, code) Hsome).
  simpl in Hall. apply orb_true_iff in Hall as [H|H];
    apply andb_true_iff in H as [H1 H2]; lia.
Qed.


Lemma was_hotkey_key_resolved self vk :
  _was_hotkey_key self vk =
    cfg_ctrl (hotkey_config self)
      && bool_decide (vk ∈ [win32con.VK_LCONTROL; win32con.VK_RCONTROL])
    || cfg_shift (hotkey_config self)
      && bool_decide (vk ∈ [win32con.VK_LSHIFT; win32con.VK_RSHIFT])
    || cfg_alt (hotkey_config self)
      && bool_decide (vk ∈ [win32con.VK_LMENU; win32con.VK_RMENU])
    || match resolved_key (hotkey_config self) with
       | Some code => bool_decide (vk = code)
       | None => false
       end.
Proof.
  unfold _was_hotkey_key, resolved_key.
  destruct (cfg_ctrl _ && _); [done|].
  destruct (cfg_shift _ && _); [done|].
  destruct (cfg_alt _ && _); [done|]. cbn [orb].
  destruct (key_mapping !! _); [done|]. by destruct (_ && _).
Qed.





Lemma alt_equiv_refl s : alt_equiv s s.
Proof. by repeat split. Qed.

Lemma alt_equiv_trans s1 s2 s3 :
  alt_equiv s1 s2 → alt_equiv s2 s3 → alt_equiv s1 s3.
Proof.
  intros (? & ? & ? & ? & ? & ? & ?) (? & ? & ? & ? & ? & ? & ?).
  repeat split; congruence.
Qed.









(** * Further properties of the listener *)

(** ** The codes of the combination *)

Lemma required_codes_resolved self :
  _get_required_vk_codes self =
    (if cfg_ctrl (hotkey_config self)
     then {[win32con.VK_LCONTROL; win32con.VK_RCONTROL]} else ∅)
    ∪ (if cfg_shift (hotkey_config self)
       then {[win32con.VK_LSHIFT; win32con.VK_RSHIFT]} else ∅)
    ∪ (if cfg_alt (hotkey_config self)
       then {[win32con.VK_LMENU; win32con.VK_RMENU]} else ∅)
    ∪ match resolved_key (hotkey_config self) with
      | Some code => {[code]}
      | None => ∅
      end.
Proof.
  unfold _get_required_vk_codes, resolved_key.
  destruct (cfg_ctrl _), (cfg_shift _), (cfg_alt _);
    (destruct (key_mapping !! _); [|destruct (_ && _)]);
    apply set_eq; intros k; set_unfold; tauto.
Qed.

Lemma required_iff_was_hotkey_key self vk :
  vk ∈ _get_required_vk_codes self ↔ _was_hotkey_key self vk = true.
Proof.
  rewrite required_codes_resolved, was_hotkey_key_resolved.
  rewrite !orb_true_iff, !andb_true_iff, !bool_decide_eq_true.
  rewrite !elem_of_union.
  destruct (cfg_ctrl _), (cfg_shift _), (cfg_alt _),
    (resolved_key _) as [code|];
    rewrite ?bool_decide_eq_true; set_unfold; intuition congruence.
Qed.

(** No key name resolves to a modifier code. *)
Lemma resolved_key_not_modifier cfg code :
  resolved_key cfg = Some code → code ∉ modifier_codes.
Proof.
  unfold resolved_key.
  destruct (key_mapping !! config_key_name cfg) as [c|] eqn:Htable.
  - intros [= <-]. apply key_mapping_codes in Htable.
    unfold modifier_codes, win32con.VK_LCONTROL, win32con.VK_RCONTROL,
      win32con.VK_LSHIFT, win32con.VK_RSHIFT, win32con.VK_LMENU,
      win32con.VK_RMENU.
    rewrite !elem_of_union, !elem_of_singleton. lia.
  - destruct (bool_decide_reflect (len (config_key_name cfg) = 1)) as [Hlen|];
      cbn [andb]; [|done].
    destruct (isalpha (config_key_name cfg)) eqn:Halpha; [|done].
    intros [= <-]. clear Htable.
    destruct (config_key_name cfg) as [|c [|c' rest]].
    + discriminate Halpha.
    + cbn [isalpha all_alpha] in Halpha. rewrite andb_true_r in Halpha.
      pose proof (letter_upper_code c Halpha) as Hcode.
      cbn [upper ord].
      unfold modifier_codes, win32con.VK_LCONTROL, win32con.VK_RCONTROL,
        win32con.VK_LSHIFT, win32con.VK_RSHIFT, win32con.VK_LMENU,
        win32con.VK_RMENU.
      rewrite !elem_of_union, !elem_of_singleton. lia.
    + unfold len in Hlen. cbn [String.length] in Hlen. lia.
Qed.

(** The three methods that resolve the combination agree: the codes
    [_get_required_vk_codes] returns are those [_was_hotkey_key] accepts,
    so a key-up emits [hotkey_released] exactly for a pressed code of that
    set; and whenever [_is_hotkey_pressed] holds, one of the pressed codes
    is a code of that set that is not a modifier (the main key). *)
Theorem required_codes_are_hotkey_keys (self : listener) (vk : Z) :
  (vk ∈ _get_required_vk_codes self ↔ _was_hotkey_key self vk = true) ∧
  signals_of (_on_key_up vk self)
  = (if bool_decide (vk ∈ pressed_keys self ∩ _get_required_vk_codes self)
     then [hotkey_released] else []) ∧
  (_is_hotkey_pressed self = true →
   ∃ code, code ∈ pressed_keys self ∩ _get_required_vk_codes self ∧
           code ∉ modifier_codes).
Proof.
  split; [apply required_iff_was_hotkey_key|]. split.
  - rewrite on_key_up_signals.
    destruct (_was_hotkey_key self vk) eqn:Hwas.
    + apply required_iff_was_hotkey_key in Hwas.
      rewrite andb_true_r.
      rewrite (bool_decide_ext _
                 (vk ∈ pressed_keys self ∩ _get_required_vk_codes self));
        [done|].
      rewrite elem_of_intersection. tauto.
    + rewrite andb_false_r, bool_decide_eq_false_2; [done|].
      rewrite elem_of_intersection, required_iff_was_hotkey_key.
      intros [_ ?]. congruence.
  - intros Hp. apply is_hotkey_pressed_iff in Hp as (_ & _ & _ & code & Hr & Hin).
    exists code. split.
    + apply elem_of_intersection. split; [done|].
      rewrite required_codes_resolved, Hr. set_solver.
    + by apply (resolved_key_not_modifier (hotkey_config self)).
Qed.

Lemma was_hotkey_key_modifiers self :
  (cfg_ctrl (hotkey_config self) = true →
   _was_hotkey_key self win32con.VK_LCONTROL = true ∧
   _was_hotkey_key self win32con.VK_RCONTROL = true) ∧
  (cfg_shift (hotkey_config self) = true →
   _was_hotkey_key self win32con.VK_LSHIFT = true ∧
   _was_hotkey_key self win32con.VK_RSHIFT = true) ∧
  (cfg_alt (hotkey_config self) = true →
   _was_hotkey_key self win32con.VK_LMENU = true ∧
   _was_hotkey_key self win32con.VK_RMENU = true).
Proof.
  split; [|split]; intros H; split; rewrite was_hotkey_key_resolved, H;
    match goal with
    | |- context [bool_decide (?k ∈ [?k; ?r])] =>
        rewrite (bool_decide_eq_true_2 (k ∈ [k; r])) by (repeat constructor)
    | |- context [bool_decide (?k ∈ [?l; ?k])] =>
        rewrite (bool_decide_eq_true_2 (k ∈ [l; k])) by (repeat constructor)
    end;
    cbn [andb orb]; rewrite ?orb_true_r; reflexivity.
Qed.

Lemma was_hotkey_key_main self code :
  resolved_key (hotkey_config self) = Some code →
  _was_hotkey_key self code = true.
Proof.
  intros Hr. rewrite was_hotkey_key_resolved, Hr.
  rewrite (bool_decide_eq_true_2 (code = code)) by done.
  by rewrite orb_true_r.
Qed.

Lemma isSatisfied_required self (S : gset Z) :
  isSatisfied (hotkey_config self) S →
  isSatisfied (hotkey_config self) (S ∩ _get_required_vk_codes self).
Proof.
  intros (Hc & Hs & Ha & code & Hr & Hin).
  destruct (was_hotkey_key_modifiers self) as (Wc & Ws & Wa).
  assert (Hmove : ∀ k, _was_hotkey_key self k = true → k ∈ S →
                       k ∈ S ∩ _get_required_vk_codes self).
  { intros k Hk HkS. apply elem_of_intersection. split; [done|].
    by apply required_iff_was_hotkey_key. }
  unfold isSatisfied. split; [|split; [|split]].
  - intros H. destruct (Wc H), (Hc H); [left|right]; by apply Hmove.
  - intros H. destruct (Ws H), (Hs H); [left|right]; by apply Hmove.
  - intros H. destruct (Wa H), (Ha H); [left|right]; by apply Hmove.
  - exists code. split; [done|]. apply Hmove; [|done].
    by apply was_hotkey_key_main.
Qed.

Lemma is_hotkey_pressed_required s s' :
  hotkey_config s = hotkey_config s' →
  pressed_keys s ∩ _get_required_vk_codes s
  = pressed_keys s' ∩ _get_required_vk_codes s →
  _is_hotkey_pressed s = _is_hotkey_pressed s'.
Proof.
  intros Hcfg Hks.
  assert (Hreq : _get_required_vk_codes s' = _get_required_vk_codes s).
  { unfold _get_required_vk_codes. by rewrite Hcfg. }
  apply eq_true_iff_eq. rewrite !is_hotkey_pressed_iff. split; intros Hsat.
  - apply (isSatisfied_mono _ (pressed_keys s' ∩ _get_required_vk_codes s));
      [apply intersection_subseteq_l|].
    rewrite <- Hks, <- Hcfg. by apply isSatisfied_required.
  - apply (isSatisfied_mono _ (pressed_keys s ∩ _get_required_vk_codes s));
      [apply intersection_subseteq_l|].
    rewrite Hks, <- Hreq, Hcfg. by apply isSatisfied_required.
Qed.

(** Keys outside the combination never matter to the predicate: two
    listeners with the same configuration whose pressed keys agree on the
    codes of [_get_required_vk_codes] give the same [_is_hotkey_pressed];
    holding further keys does not block the hotkey and releasing them does
    not complete it. *)
Theorem predicate_reads_required_codes_only (self self' : listener) :
  hotkey_config self = hotkey_config self' →
  pressed_keys self ∩ _get_required_vk_codes self
  = pressed_keys self' ∩ _get_required_vk_codes self →
  _is_hotkey_pressed self = _is_hotkey_pressed self' ∧
  _is_hotkey_pressed self
  = _is_hotkey_pressed
      (set_pressed_keys (pressed_keys self ∩ _get_required_vk_codes self) self).
Proof.
  intros Hcfg Hks. split; [by apply is_hotkey_pressed_required|].
  apply is_hotkey_pressed_required; [done|].
  cbn [pressed_keys set_pressed_keys]. set_solver.
Qed.

Lemma predicate_reads_required_codes_only_witness :
  let self := set_pressed_keys {[win32con.VK_LCONTROL; win32con.VK_LSHIFT;
                                 win32con.VK_F12]} (__init__ None) in
  let self' := set_pressed_keys {[win32con.VK_LCONTROL; win32con.VK_LSHIFT;
                                  win32con.VK_F12; 65; 0x5B]} (__init__ None) in
  (hotkey_config self = hotkey_config self' ∧
   pressed_keys self ∩ _get_required_vk_codes self
   = pressed_keys self' ∩ _get_required_vk_codes self) ∧
  _is_hotkey_pressed self = _is_hotkey_pressed self'.
Proof.
  intros self self'.
  assert (Hcfg : hotkey_config self = hotkey_config self') by reflexivity.
  assert (Hks : pressed_keys self ∩ _get_required_vk_codes self
                = pressed_keys self' ∩ _get_required_vk_codes self).
  { apply (bool_decide_unpack _). vm_compute. exact I. }
  split; [exact (conj Hcfg Hks)|].
  exact (proj1 (predicate_reads_required_codes_only self self' Hcfg Hks)).
Defined.

(** The main key is always needed: while every pressed key is one of the
    six modifier codes (or none is pressed), [_is_hotkey_pressed] is false
    whatever the configuration, also one that requests no modifier. *)
Theorem modifiers_alone_never_match (self : listener) :
  pressed_keys self ⊆ modifier_codes → _is_hotkey_pressed self = false.
Proof.
  intros Hsub. destruct (_is_hotkey_pressed self) eqn:Hp; [|done].
  apply is_hotkey_pressed_iff in Hp as (_ & _ & _ & code & Hr & Hin).
  apply resolved_key_not_modifier in Hr. by apply Hsub in Hin.
Qed.

Lemma modifiers_alone_never_match_witness :
  let self := set_pressed_keys {[win32con.VK_LCONTROL; win32con.VK_RSHIFT;
                                 win32con.VK_LMENU]}
                (__init__ (Some (Config false false false None))) in
  pressed_keys self ⊆ modifier_codes ∧ _is_hotkey_pressed self = false.
Proof.
  intros self.
  assert (Hsub : pressed_keys self ⊆ modifier_codes).
  { apply (bool_decide_unpack _). vm_compute. exact I. }
  split; [exact Hsub|]. exact (modifiers_alone_never_match self Hsub).
Defined.

(** ** The active flag and the combination *)

Lemma on_key_up_unrelated_predicate s vk :
  _was_hotkey_key s vk = false →
  _is_hotkey_pressed (state_of (_on_key_up vk s)) = _is_hotkey_pressed s.
Proof.
  intros Hwas.
  pose proof (handle_frame (KeyUp vk) s) as (Hcfg & _).
  pose proof (handle_pressed (KeyUp vk) s) as Hks.
  change (handle (KeyUp vk)) with (_on_key_up vk) in *.
  apply is_hotkey_pressed_required.
  - by rewrite Hcfg.
  - rewrite Hks.
    assert (Hreq : _get_required_vk_codes (state_of (_on_key_up vk s))
                   = _get_required_vk_codes s).
    { unfold _get_required_vk_codes. by rewrite Hcfg. }
    rewrite Hreq. apply set_eq. intros k.
    rewrite !elem_of_intersection, elem_of_difference, elem_of_singleton.
    rewrite required_iff_was_hotkey_key.
    split; [tauto|]. intros [Hk Hreq']. repeat split; try done.
    intros ->. congruence.
Qed.

Lemma handle_coherent e s : coherent s → coherent (state_of (handle e s)).
Proof.
  unfold coherent. intros Hinv. destruct e as [now vk|vk].
  - change (handle (KeyDown now vk)) with (_on_key_down now vk).
    rewrite on_key_down_active. by intros [? _]%andb_true_iff.
  - change (handle (KeyUp vk)) with (_on_key_up vk).
    rewrite on_key_up_active.
    destruct (bool_decide_reflect (vk ∈ pressed_keys s)) as [Hin|Hout];
      cbn [andb].
    + destruct (_was_hotkey_key s vk) eqn:Hwas; [done|].
      rewrite on_key_up_unrelated_predicate by done. exact Hinv.
    + rewrite on_key_up_eq, bool_decide_eq_false_2 by done. exact Hinv.
Qed.

Lemma replay_coherent evs s : coherent s → coherent (state_of (replay evs s)).
Proof.
  revert s. induction evs as [|e evs IH]; intros s Hinv; [done|].
  rewrite state_of_replay_cons. by apply IH, handle_coherent.
Qed.

Lemma init_coherent cfg : coherent (__init__ cfg).
Proof. unfold coherent. discriminate. Qed.

(** The active flag is only ever set while the combination is held: from
    a listener where [hotkey_active] implies [_is_hotkey_pressed], as a new
    one is, every replay of key transitions ends in such a listener. *)
Theorem active_only_while_combination_held
    (self : listener) (evs : list key_event) :
  (hotkey_active self = true → _is_hotkey_pressed self = true) →
  hotkey_active (state_of (replay evs self)) = true →
  _is_hotkey_pressed (state_of (replay evs self)) = true.
Proof. intros Hinv. by apply (replay_coherent evs self). Qed.

Lemma active_only_while_combination_held_witness :
  let self := __init__ None in
  let evs := [KeyDown 100 win32con.VK_LCONTROL; KeyDown 101 win32con.VK_LSHIFT;
              KeyDown 102 win32con.VK_F12; KeyDown 103 65; KeyUp 65] in
  (hotkey_active self = true → _is_hotkey_pressed self = true) ∧
  hotkey_active (state_of (replay evs self)) = true ∧
  _is_hotkey_pressed (state_of (replay evs self)) = true.
Proof.
  intros self evs.
  assert (Hinv : hotkey_active self = true → _is_hotkey_pressed self = true)
    by discriminate.
  assert (Hact : hotkey_active (state_of (replay evs self)) = true)
    by (vm_compute; reflexivity).
  split; [exact Hinv|]. split; [exact Hact|].
  exact (active_only_while_combination_held self evs Hinv Hact).
Defined.

Lemma handle_active_kept now vk s :
  coherent s → hotkey_active s = true →
  hotkey_active (state_of (_on_key_down now vk s)) = true.
Proof.
  intros Hinv Hact. rewrite on_key_down_active, Hact. cbn [orb].
  rewrite andb_true_r, on_key_down_matched.
  apply (is_hotkey_pressed_mono s); [done| |by apply Hinv].
  cbn [pressed_keys set_pressed_keys]. apply union_subseteq_r.
Qed.

Lemma replay_alternating evs s :
  coherent s → alternating (hotkey_active s) (signals_of (replay evs s)).
Proof.
  revert s. induction evs as [|e evs IH]; intros s Hinv; [done|].
  rewrite signals_of_replay_cons.
  pose proof (IH _ (handle_coherent e s Hinv)) as Hrest.
  destruct e as [now vk|vk].
  - change (handle (KeyDown now vk)) with (_on_key_down now vk) in *.
    rewrite on_key_down_signals.
    destruct (hotkey_active s) eqn:Hact.
    + rewrite andb_false_r. cbn [andb app].
      by rewrite (handle_active_kept now vk s Hinv Hact) in Hrest.
    + cbn [negb]. rewrite andb_true_r.
      rewrite on_key_down_active, Hact in Hrest. cbn [orb] in Hrest.
      destruct (_ && _); cbn [app alternating]; [by split|done].
  - change (handle (KeyUp vk)) with (_on_key_up vk) in *.
    rewrite on_key_up_signals. rewrite on_key_up_active in Hrest.
    destruct (_ && _); cbn [app alternating]; done.
Qed.

Lemma alternating_count a sigs :
  alternating a sigs →
  (activations sigs + (if a then 1 else 0) ≤ releases sigs + 1)%nat.
Proof.
  revert a. induction sigs as [|x sigs IH]; intros a Halt.
  { destruct a; cbn; lia. }
  destruct x; cbn [alternating] in Halt.
  - destruct Halt as [-> Halt]. specialize (IH true Halt).
    unfold activations, releases in *.
    rewrite filter_cons_True by done.
    rewrite (filter_cons_False (λ x, x = hotkey_released)) by done.
    cbn [length]. lia.
  - specialize (IH false Halt).
    unfold activations, releases in *.
    rewrite filter_cons_False by done.
    rewrite (filter_cons_True (λ x, x = hotkey_released)) by done.
    cbn [length]. destruct a; lia.
Qed.

(** The two signals come in turn: in the signals of any replay from a
    listener whose active flag is only set while the combination is held
    (a new one), a [hotkey_pressed] is never emitted while the hotkey is
    active, so between two [hotkey_pressed] there is a [hotkey_released],
    and [hotkey_pressed] is emitted at most once more than
    [hotkey_released]. *)
Theorem pressed_and_released_alternate
    (self : listener) (evs : list key_event) :
  (hotkey_active self = true → _is_hotkey_pressed self = true) →
  alternating (hotkey_active self) (signals_of (replay evs self)) ∧
  (activations (signals_of (replay evs self))
   ≤ releases (signals_of (replay evs self)) + 1)%nat.
Proof.
  intros Hinv.
  pose proof (replay_alternating evs self Hinv) as Halt.
  split; [exact Halt|].
  pose proof (alternating_count _ _ Halt). lia.
Qed.

Lemma pressed_and_released_alternate_witness :
  let self := __init__ None in
  let evs := [KeyDown 100 win32con.VK_LCONTROL; KeyDown 101 win32con.VK_LSHIFT;
              KeyDown 102 win32con.VK_F12; KeyUp win32con.VK_F12;
              KeyDown 103 win32con.VK_F12] in
  (hotkey_active self = true → _is_hotkey_pressed self = true) ∧
  alternating false (signals_of (replay evs self)).
Proof.
  intros self evs.
  assert (Hinv : hotkey_active self = true → _is_hotkey_pressed self = true)
    by discriminate.
  split; [exact Hinv|].
  exact (proj1 (pressed_and_released_alternate self evs Hinv)).
Defined.

(** ** Keys that change nothing *)

Lemma set_pressed_keys_same s : set_pressed_keys (pressed_keys s) s = s.
Proof. by destruct s. Qed.

Lemma set_hotkey_active_same s : set_hotkey_active (hotkey_active s) s = s.
Proof. by destruct s. Qed.

Lemma on_key_down_settled now vk s :
  _is_hotkey_pressed (set_pressed_keys ({[vk]} ∪ pressed_keys s) s)
  = hotkey_active s →
  _on_key_down now vk s
  = (PyNone, set_pressed_keys ({[vk]} ∪ pressed_keys s) s, []).
Proof.
  intros Hinv. rewrite on_key_down_eq. cbv zeta. rewrite Hinv.
  destruct (hotkey_active s) eqn:Hact; cbn [negb]; [done|].
  f_equal. f_equal.
  rewrite <- (set_hotkey_active_same (set_pressed_keys _ s)) at 2.
  cbn [hotkey_active set_pressed_keys]. by rewrite Hact.
Qed.

(** Keyboard auto-repeat is harmless: a key-down of a code that is already
    in [pressed_keys], on a listener whose active flag agrees with the
    combination predicate, emits nothing and leaves the listener as it
    is, whatever the clock reads. *)
Theorem repeated_key_down_changes_nothing
    (self : listener) (now : Q) (vk : Z) :
  vk ∈ pressed_keys self →
  _is_hotkey_pressed self = hotkey_active self →
  _on_key_down now vk self = (PyNone, self, []).
Proof.
  intros Hin Hinv.
  assert (Hks : {[vk]} ∪ pressed_keys self = pressed_keys self).
  { apply subseteq_union_1_L. by apply singleton_subseteq_l. }
  rewrite on_key_down_settled; rewrite Hks, set_pressed_keys_same; done.
Qed.

Lemma repeated_key_down_changes_nothing_witness :
  let self := state_of (replay [KeyDown 100 win32con.VK_LCONTROL;
                                KeyDown 101 win32con.VK_LSHIFT;
                                KeyDown 102 win32con.VK_F12]
                               (__init__ None)) in
  (win32con.VK_F12 ∈ pressed_keys self ∧
   _is_hotkey_pressed self = hotkey_active self) ∧
  _on_key_down 103 win32con.VK_F12 self = (PyNone, self, []).
Proof.
  intros self.
  assert (Hin : win32con.VK_F12 ∈ pressed_keys self).
  { apply (bool_decide_unpack _). vm_compute. exact I. }
  assert (Hinv : _is_hotkey_pressed self = hotkey_active self)
    by (vm_compute; reflexivity).
  split; [exact (conj Hin Hinv)|].
  exact (repeated_key_down_changes_nothing self 103 win32con.VK_F12 Hin Hinv).
Defined.

(** Tapping a key that is not part of the combination is a round trip: on
    a listener whose active flag agrees with the predicate, the key-down
    followed by the key-up of a code that was not pressed and that
    [_was_hotkey_key] rejects emits nothing and gives the listener back as
    it was. *)
Theorem unrelated_key_tap_is_round_trip
    (self : listener) (now : Q) (vk : Z) :
  vk ∉ pressed_keys self →
  _was_hotkey_key self vk = false →
  _is_hotkey_pressed self = hotkey_active self →
  replay [KeyDown now vk; KeyUp vk] self = (tt, self, []).
Proof.
  intros Hout Hwas Hinv.
  set (s1 := set_pressed_keys ({[vk]} ∪ pressed_keys self) self).
  assert (Hreq : vk ∉ _get_required_vk_codes self).
  { rewrite required_iff_was_hotkey_key. congruence. }
  assert (Hp1 : _is_hotkey_pressed s1 = hotkey_active self).
  { rewrite <- Hinv. symmetry. apply is_hotkey_pressed_required; [done|].
    subst s1. cbn [pressed_keys set_pressed_keys].
    apply set_eq. intros k.
    rewrite !elem_of_intersection, elem_of_union, elem_of_singleton.
    split; [tauto|]. intros [[->|Hk] Hr]; [done|tauto]. }
  assert (Hdown : _on_key_down now vk self = (PyNone, s1, []))
    by (by apply on_key_down_settled).
  assert (Hback : pressed_keys s1 ∖ {[vk]} = pressed_keys self).
  { subst s1. cbn [pressed_keys set_pressed_keys].
    apply set_eq. intros k.
    rewrite elem_of_difference, elem_of_union, elem_of_singleton.
    split; [tauto|]. intros Hk. split; [tauto|]. by intros ->. }
  assert (Hup : _on_key_up vk s1 = (PyNone, self, [])).
  { rewrite on_key_up_eq, bool_decide_eq_true_2.
    2:{ subst s1. cbn [pressed_keys set_pressed_keys].
        apply elem_of_union. left. by apply elem_of_singleton. }
    cbv zeta. rewrite (was_hotkey_key_ext _ self) by done. rewrite Hwas.
    rewrite Hback. subst s1. by destruct self. }
  rewrite replay_cons.
  change (handle (KeyDown now vk)) with (_on_key_down now vk).
  rewrite Hdown. unfold state_of, signals_of. cbn [fst snd].
  rewrite replay_cons.
  change (handle (KeyUp vk)) with (_on_key_up vk).
  rewrite Hup. reflexivity.
Qed.

Lemma unrelated_key_tap_is_round_trip_witness :
  let self := state_of (replay [KeyDown 100 win32con.VK_LCONTROL;
                                KeyDown 101 win32con.VK_LSHIFT]
                               (__init__ None)) in
  ((65 ∉ pressed_keys self) ∧ _was_hotkey_key self 65 = false ∧
   _is_hotkey_pressed self = hotkey_active self) ∧
  replay [KeyDown 102 65; KeyUp 65] self = (tt, self, []).
Proof.
  intros self.
  assert (Hout : 65 ∉ pressed_keys self).
  { apply (bool_decide_unpack _). vm_compute. exact I. }
  assert (Hwas : _was_hotkey_key self 65 = false) by (vm_compute; reflexivity).
  assert (Hinv : _is_hotkey_pressed self = hotkey_active self)
    by (vm_compute; reflexivity).
  split; [exact (conj Hout (conj Hwas Hinv))|].
  exact (unrelated_key_tap_is_round_trip self 102 65 Hout Hwas Hinv).
Defined.

(** ** The debounce clock *)

Lemma handle_last_time e s :
  (0 <= debounce_interval s)%Q →
  (last_hotkey_time s <= last_hotkey_time (state_of (handle e s)))%Q.
Proof.
  intros Hd. destruct e as [now vk|vk].
  - change (handle (KeyDown now vk)) with (_on_key_down now vk).
    rewrite on_key_down_last.
    destruct (_is_hotkey_pressed _); cbn [andb]; [|apply Qle_refl].
    destruct (negb _); cbn [andb]; [|apply Qle_refl].
    destruct (Qle_bool _ _) eqn:Hq; [|apply Qle_refl].
    apply Qle_bool_iff in Hq. lra.
  - change (handle (KeyUp vk)) with (_on_key_up vk).
    rewrite on_key_up_last. apply Qle_refl.
Qed.

(** The recorded activation time never goes back: with a debounce interval
    that is not negative (it is 0.05 s in every listener the constructor
    makes), [last_hotkey_time] after a replay is at least what it was
    before, in whatever order the clock readings of the key-downs
    come. *)
Theorem last_hotkey_time_never_decreases
    (self : listener) (evs : list key_event) :
  (0 <= debounce_interval self)%Q →
  (last_hotkey_time self <= last_hotkey_time (state_of (replay evs self)))%Q.
Proof.
  revert self. induction evs as [|e evs IH]; intros self Hd.
  { apply Qle_refl. }
  rewrite state_of_replay_cons.
  pose proof (handle_frame e self) as (_ & Hd' & _).
  apply Qle_trans with (last_hotkey_time (state_of (handle e self))).
  - by apply handle_last_time.
  - apply IH. by rewrite Hd'.
Qed.

Lemma last_hotkey_time_never_decreases_witness :
  let self := __init__ None in
  let evs := [KeyDown 100 win32con.VK_LCONTROL; KeyDown 101 win32con.VK_LSHIFT;
              KeyDown 102 win32con.VK_F12; KeyUp win32con.VK_F12;
              KeyDown 50 win32con.VK_F12] in
  (0 <= debounce_interval self)%Q ∧
  (last_hotkey_time self <= last_hotkey_time (state_of (replay evs self)))%Q.
Proof.
  intros self evs.
  assert (Hd : (0 <= debounce_interval self)%Q) by (vm_compute; discriminate).
  split; [exact Hd|].
  exact (last_hotkey_time_never_decreases self evs Hd).
Defined.

(** ** The hook callback *)

Lemma static_keyboard_proc_eq now nCode wParam vkCode s :
  _static_keyboard_proc now nCode wParam vkCode s =
    match key_event_of (HookCall now nCode wParam vkCode) with
    | Some e => (tt, state_of (handle e s), signals_of (handle e s))
    | None => (tt, s, [])
    end.
Proof.
  unfold _static_keyboard_proc, key_event_of. cbn [hc_nCode hc_wParam
    hc_time hc_vkCode].
  destruct (bool_decide_reflect (0 ≤ nCode)) as [Hn|Hn].
  - rewrite (bool_decide_eq_false_2 (nCode < 0)) by lia.
    assert (Hdown : bool_decide (wParam ∈ [win32con.WM_KEYDOWN;
                                           win32con.WM_SYSKEYDOWN])
                    = bool_decide (wParam = win32con.WM_KEYDOWN)
                      || bool_decide (wParam = win32con.WM_SYSKEYDOWN)).
    { apply eq_true_iff_eq.
      rewrite orb_true_iff, !bool_decide_eq_true, !elem_of_cons, elem_of_nil.
      tauto. }
    assert (Hup : bool_decide (wParam ∈ [win32con.WM_KEYUP;
                                         win32con.WM_SYSKEYUP])
                  = bool_decide (wParam = win32con.WM_KEYUP)
                    || bool_decide (wParam = win32con.WM_SYSKEYUP)).
    { apply eq_true_iff_eq.
      rewrite orb_true_iff, !bool_decide_eq_true, !elem_of_cons, elem_of_nil.
      tauto. }
    rewrite Hdown, Hup.
    destruct (_ || _).
    + cbn [handle]. unfold mbind, M_bind, mret, M_ret, state_of, signals_of.
      destruct (_on_key_down now vkCode s) as [[r s1] o1]. cbn [fst snd].
      by rewrite app_nil_r.
    + destruct (_ || _); [|done].
      cbn [handle]. unfold mbind, M_bind, mret, M_ret, state_of, signals_of.
      destruct (_on_key_up vkCode s) as [[r s1] o1]. cbn [fst snd].
      by rewrite app_nil_r.
  - by rewrite (bool_decide_eq_true_2 (nCode < 0)) by lia.
Qed.

(** The hook procedure over a stream of calls does what replaying the key
    transitions they carry does: calls with a negative [nCode] and
    messages other than the four key messages change nothing and emit
    nothing, and [WM_SYSKEYDOWN]/[WM_SYSKEYUP] are handled as
    [WM_KEYDOWN]/[WM_KEYUP].  The bound callback
    [_low_level_keyboard_proc] is the same function. *)
Theorem hook_calls_are_replay (calls : list hook_call) (self : listener) :
  state_of (hook_calls calls self)
  = state_of (replay (omap key_event_of calls) self) ∧
  signals_of (hook_calls calls self)
  = signals_of (replay (omap key_event_of calls) self) ∧
  (∀ now nCode wParam vkCode,
      _low_level_keyboard_proc now nCode wParam vkCode self
      = _static_keyboard_proc now nCode wParam vkCode self).
Proof.
  split; [|split; [|done]].
  - revert self. induction calls as [|c calls IH]; intros self; [done|].
    cbn [hook_calls omap list_omap].
    unfold mbind at 1, M_bind at 1.
    destruct c as [now n w v]. cbn [hc_time hc_nCode hc_wParam hc_vkCode].
    rewrite static_keyboard_proc_eq.
    destruct (key_event_of _) as [e|].
    + rewrite state_of_replay_cons, <- IH. unfold state_of.
      by destruct (hook_calls calls _) as [[[] s2] o2].
    + rewrite <- IH. unfold state_of.
      by destruct (hook_calls calls self) as [[[] s2] o2].
  - revert self. induction calls as [|c calls IH]; intros self; [done|].
    cbn [hook_calls omap list_omap].
    unfold mbind at 1, M_bind at 1.
    destruct c as [now n w v]. cbn [hc_time hc_nCode hc_wParam hc_vkCode].
    rewrite static_keyboard_proc_eq.
    destruct (key_event_of _) as [e|].
    + rewrite signals_of_replay_cons, <- IH. unfold signals_of at 1 3.
      by destruct (hook_calls calls _) as [[[] s2] o2].
    + rewrite <- IH. unfold signals_of.
      by destruct (hook_calls calls self) as [[[] s2] o2].
Qed.

(** ** Life cycle, composed *)

(** [start] and [stop] can be repeated: once [start] has returned [True],
    a further [start] returns [True] and changes nothing, also when a
    thread could not be created; a [stop] after a [stop] changes nothing;
    and [stop] after [start] leaves the listener stopped. *)
Theorem start_and_stop_can_be_repeated
    (self : listener) (thread_started again : bool) :
  result_of (start thread_started self) = PyBool true →
  start again (state_of (start thread_started self))
  = (PyBool true, state_of (start thread_started self), []) ∧
  stop (state_of (stop self)) = (PyNone, state_of (stop self), []) ∧
  is_running (state_of (stop (state_of (start thread_started self)))) = false.
Proof.
  intros Hok. rewrite !start_eq, !stop_eq in *.
  destruct (is_running self) eqn:Hrun, thread_started,
    (hook_truthy (hook_id self)) eqn:Hh;
    cbn [negb state_of result_of fst snd is_running set_is_running
         set_hook_id hook_id hook_truthy] in *;
    rewrite ?Hrun, ?Hh; cbn [negb]; try done.
Qed.

Lemma start_and_stop_can_be_repeated_witness :
  let self := __init__ None in
  result_of (start true self) = PyBool true ∧
  start false (state_of (start true self))
  = (PyBool true, state_of (start true self), []).
Proof.
  intros self.
  assert (Hok : result_of (start true self) = PyBool true) by reflexivity.
  split; [exact Hok|].
  exact (proj1 (start_and_stop_can_be_repeated self true false Hok)).
Defined.

Lemma update_hotkey_config_eq t cfg self :
  update_hotkey_config t cfg self =
    if is_running self
    then (PyNone,
          state_of (start t (state_of (stop (set_hotkey_config cfg self)))),
          [])
    else (PyNone, set_hotkey_config cfg self, []).
Proof.
  unfold update_hotkey_config, stop, start, mbind, M_bind, attr, assign,
    mret, M_ret.
  destruct self as [c r h p a l d]; simpl. destruct r; simpl; [|done].
  by destruct (hook_truthy h), t.
Qed.

(** [update_hotkey_config] stores the new configuration, returns nothing
    and emits nothing.  A stopped listener stays stopped and is otherwise
    as after [register_hotkey]; a running one is stopped and started
    again, and is left stopped, without any report, when the new thread
    cannot be created.  The pressed keys, the active flag and the last
    activation time are carried over to the new configuration. *)
Theorem update_hotkey_config_keeps_tracker
    (self : listener) (thread_started : bool) (new_config : config) :
  let r := update_hotkey_config thread_started new_config self in
  result_of r = PyNone ∧
  signals_of r = [] ∧
  hotkey_config (state_of r) = new_config ∧
  is_running (state_of r) = is_running self && thread_started ∧
  pressed_keys (state_of r) = pressed_keys self ∧
  hotkey_active (state_of r) = hotkey_active self ∧
  last_hotkey_time (state_of r) = last_hotkey_time self ∧
  debounce_interval (state_of r) = debounce_interval self ∧
  (is_running self = false →
   state_of r = state_of (register_hotkey new_config self)).
Proof.
  cbv zeta. rewrite update_hotkey_config_eq, stop_eq, start_eq.
  destruct self as [c r h p a l d]; simpl.
  destruct r; simpl; [|done].
  by destruct (hook_truthy h), thread_started.
Qed.

Lemma hook_proc_finally_eq self :
  _hook_proc_finally self =
    if hook_truthy (hook_id self) then (tt, set_hook_id None self, [])
    else (tt, self, []).
Proof.
  unfold _hook_proc_finally, mbind, M_bind, attr, assign, mret, M_ret.
  by destruct (hook_truthy (hook_id self)).
Qed.

(** The hook thread does not leave a handle behind: after the [finally]
    block of [_hook_proc] the handle is null or [None], whether the
    installation went through or not; after a [stop] of a running
    listener the block finds nothing to release; and the block touches
    nothing but [hook_id]. *)
Theorem hook_thread_releases_handle (self : listener) (handle_returned : Z) :
  hook_truthy (hook_id (state_of (_hook_proc_finally self))) = false ∧
  hook_truthy
    (hook_id (state_of (_hook_proc_finally
                          (state_of (_hook_proc_install handle_returned self)))))
  = false ∧
  (is_running self = true →
   _hook_proc_finally (state_of (stop self)) = (tt, state_of (stop self), [])) ∧
  set_hook_id (hook_id self) (state_of (_hook_proc_finally self)) = self ∧
  signals_of (_hook_proc_finally self) = [].
Proof.
  rewrite !hook_proc_finally_eq, hook_proc_install_eq, stop_eq.
  cbn [state_of fst snd hook_id set_hook_id].
  split; [|split; [|split; [|split]]].
  - by destruct (hook_truthy (hook_id self)) eqn:Hh.
  - cbn [hook_truthy]. by destruct (negb (handle_returned =? 0)) eqn:Hh.
  - intros ->. cbn [negb].
    by destruct (hook_truthy (hook_id self)) eqn:Hh;
      cbn [state_of fst snd hook_id set_hook_id set_is_running hook_truthy];
      rewrite ?Hh.
  - by destruct (hook_truthy (hook_id self)), self.
  - by destruct (hook_truthy (hook_id self)).
Qed.

(** ** Key names *)

Lemma lower_ascii_case c :
  lower_ascii (lower_ascii c) = lower_ascii c ∧
  lower_ascii (upper_ascii c) = lower_ascii c.
Proof. by destruct c as [[] [] [] [] [] [] [] []]. Qed.

Lemma lower_case k : lower (lower k) = lower k ∧ lower (upper k) = lower k.
Proof.
  induction k as [|c k [IH1 IH2]]; [done|]. cbn [lower upper].
  destruct (lower_ascii_case c) as [-> ->]. by rewrite IH1, IH2.
Qed.

Lemma config_key_name_ext self self' :
  cfg_ctrl (hotkey_config self') = cfg_ctrl (hotkey_config self) →
  cfg_shift (hotkey_config self') = cfg_shift (hotkey_config self) →
  cfg_alt (hotkey_config self') = cfg_alt (hotkey_config self) →
  config_key_name (hotkey_config self') = config_key_name (hotkey_config self) →
  pressed_keys self' = pressed_keys self →
  _is_hotkey_pressed self' = _is_hotkey_pressed self ∧
  (∀ vk, _was_hotkey_key self' vk = _was_hotkey_key self vk) ∧
  _get_required_vk_codes self' = _get_required_vk_codes self.
Proof.
  intros Hc Hs Ha Hk Hp.
  unfold _is_hotkey_pressed, _was_hotkey_key, _get_required_vk_codes.
  by rewrite Hc, Hs, Ha, Hk, Hp.
Qed.

(** The case of the key name is ignored: writing an ASCII key name in
    upper case or in lower case (as the application does before it hands
    the configuration over) changes none of the combination predicate, the
    test of a released key and the set of required codes. *)
Theorem key_name_case_is_ignored (self : listener) (k k' : string) :
  cfg_key (hotkey_config self) = Some k →
  is_ascii k = true →
  k' = upper k ∨ k' = lower k →
  let self' := set_hotkey_config (with_key k' (hotkey_config self)) self in
  _is_hotkey_pressed self' = _is_hotkey_pressed self ∧
  (∀ vk, _was_hotkey_key self' vk = _was_hotkey_key self vk) ∧
  _get_required_vk_codes self' = _get_required_vk_codes self.
Proof.
  intros Hkey _ Hk' self'. apply config_key_name_ext; try done.
  subst self'. cbn [hotkey_config set_hotkey_config].
  unfold config_key_name, with_key. cbn [cfg_key]. rewrite Hkey.
  cbn [default from_option id]. destruct (lower_case k) as [Hl Hu].
  by destruct Hk' as [-> | ->].
Qed.

Lemma key_name_case_is_ignored_witness :
  let self := set_pressed_keys {[win32con.VK_LCONTROL; win32con.VK_LSHIFT;
                                 win32con.VK_F12]} (__init__ None) in
  let self' :=
    set_hotkey_config (with_key "F12"%string (hotkey_config self)) self in
  (cfg_key (hotkey_config self) = Some "f12"%string ∧
   is_ascii "f12" = true ∧
   ("F12"%string = upper "f12" ∨ "F12"%string = lower "f12")) ∧
  _is_hotkey_pressed self' = _is_hotkey_pressed self.
Proof.
  intros self self'.
  assert (Hkey : cfg_key (hotkey_config self) = Some "f12"%string)
    by reflexivity.
  assert (Hk' : "F12"%string = upper "f12" ∨ "F12"%string = lower "f12")
    by (left; reflexivity).
  split; [exact (conj Hkey (conj eq_refl Hk'))|].
  exact (proj1 (key_name_case_is_ignored self "f12" "F12" Hkey eq_refl Hk')).
Defined.

Lemma letter_resolved cfg c :
  cfg_key cfg = Some (String c EmptyString) →
  is_upper_ascii c || is_lower_ascii c = true →
  resolved_key cfg = Some (ascii_code (upper_ascii c)).
Proof.
  intros Hkey Hletter.
  assert (H : key_mapping !! String (lower_ascii c) EmptyString = None ∧
              is_upper_ascii (lower_ascii c) || is_lower_ascii (lower_ascii c)
              = true ∧
              ascii_code (upper_ascii (lower_ascii c))
              = ascii_code (upper_ascii c)).
  { revert Hletter.
    destruct c as [[] [] [] [] [] [] [] []]; vm_compute;
      first [discriminate | by intros _]. }
  destruct H as (Htable & Halpha & Hcode).
  unfold resolved_key, config_key_name. rewrite Hkey.
  cbn [default from_option id lower]. rewrite Htable.
  rewrite (bool_decide_eq_true_2 (len _ = 1)) by reflexivity.
  cbn [isalpha all_alpha andb upper ord]. rewrite Halpha. cbn [andb].
  by rewrite Hcode.
Qed.

Lemma modifier_groups :
  ({[win32con.VK_LCONTROL; win32con.VK_RCONTROL]} : gset Z) ⊆ modifier_codes ∧
  ({[win32con.VK_LSHIFT; win32con.VK_RSHIFT]} : gset Z) ⊆ modifier_codes ∧
  ({[win32con.VK_LMENU; win32con.VK_RMENU]} : gset Z) ⊆ modifier_codes.
Proof. repeat split; apply (bool_decide_unpack _); vm_compute; exact I. Qed.

(** A letter as the main key stands for the code of its capital: with a
    one-letter key name, in either case, the only required code that is
    not a modifier is the ASCII code of the capital letter, which lies
    between 65 and 90, and [_was_hotkey_key] accepts that code. *)
Theorem letter_key_is_capital_code (self : listener) (c : ascii) :
  cfg_key (hotkey_config self) = Some (String c EmptyString) →
  is_upper_ascii c || is_lower_ascii c = true →
  65 ≤ ascii_code (upper_ascii c) ≤ 90 ∧
  _get_required_vk_codes self ∖ modifier_codes
  = {[ascii_code (upper_ascii c)]} ∧
  _was_hotkey_key self (ascii_code (upper_ascii c)) = true.
Proof.
  intros Hkey Hletter.
  pose proof (letter_resolved _ c Hkey Hletter) as Hres.
  split; [by apply letter_upper_code|]. split; [|by apply was_hotkey_key_main].
  apply set_eq. intros k.
  rewrite elem_of_difference, elem_of_singleton, required_codes_resolved, Hres.
  rewrite !elem_of_union, elem_of_singleton. split.
  - destruct modifier_groups as (Gc & Gs & Ga).
    intros [[[[Hk|Hk]|Hk]|Hk] Hn]; [exfalso; apply Hn..|done].
    + destruct (cfg_ctrl _); [by apply Gc|by apply elem_of_empty in Hk].
    + destruct (cfg_shift _); [by apply Gs|by apply elem_of_empty in Hk].
    + destruct (cfg_alt _); [by apply Ga|by apply elem_of_empty in Hk].
  - intros ->. split; [by right|].
    by apply (resolved_key_not_modifier (hotkey_config self)).
Qed.

Lemma letter_key_is_capital_code_witness :
  let self := __init__ (Some (Config true false true (Some "q"%string))) in
  (cfg_key (hotkey_config self) = Some "q"%string ∧
   is_upper_ascii "q" || is_lower_ascii "q" = true) ∧
  _was_hotkey_key self 81 = true.
Proof.
  intros self.
  assert (Hkey : cfg_key (hotkey_config self) = Some "q"%string)
    by reflexivity.
  assert (Hletter : is_upper_ascii "q" || is_lower_ascii "q" = true)
    by reflexivity.
  split; [exact (conj Hkey Hletter)|].
  exact (proj2 (proj2 (letter_key_is_capital_code self "q" Hkey Hletter))).
Defined.

(** ** Any key-down can activate *)

(** While the combination is held and the hotkey is not active (one of two
    held Ctrl or Shift keys was released, or the completing key-down fell
    into the debounce interval), the next key-down that comes at least the
    debounce interval after the last activation emits [hotkey_pressed],
    whichever key it is: a repeat of a held key or a key that has nothing
    to do with the combination. *)
Theorem held_combination_activates_on_any_key_down
    (self : listener) (now : Q) (vk : Z) :
  _is_hotkey_pressed self = true →
  hotkey_active self = false →
  (debounce_interval self <= now - last_hotkey_time self)%Q →
  signals_of (_on_key_down now vk self) = [hotkey_pressed] ∧
  hotkey_active (state_of (_on_key_down now vk self)) = true ∧
  last_hotkey_time (state_of (_on_key_down now vk self)) = now.
Proof.
  intros Hp Hact Hq. apply Qle_bool_iff in Hq.
  assert (Hp' : _is_hotkey_pressed (state_of (_on_key_down now vk self))
                = true).
  { rewrite on_key_down_matched.
    apply (is_hotkey_pressed_mono self); [done| |done].
    cbn [pressed_keys set_pressed_keys]. apply union_subseteq_r. }
  rewrite on_key_down_signals, on_key_down_active, on_key_down_last.
  by rewrite Hp', Hact, Hq.
Qed.

Lemma held_combination_activates_on_any_key_down_witness :
  let self := state_of (replay [KeyDown 100 win32con.VK_LCONTROL;
                                KeyDown 101 win32con.VK_RCONTROL;
                                KeyDown 102 win32con.VK_LSHIFT;
                                KeyDown 103 win32con.VK_F12;
                                KeyUp win32con.VK_RCONTROL]
                               (__init__ None)) in
  (_is_hotkey_pressed self = true ∧ hotkey_active self = false ∧
   (debounce_interval self <= 200 - last_hotkey_time self)%Q) ∧
  signals_of (_on_key_down 200 65 self) = [hotkey_pressed].
Proof.
  intros self.
  assert (Hp : _is_hotkey_pressed self = true) by (vm_compute; reflexivity).
  assert (Hact : hotkey_active self = false) by (vm_compute; reflexivity).
  assert (Hq : (debounce_interval self <= 200 - last_hotkey_time self)%Q)
    by (vm_compute; discriminate).
  split; [exact (conj Hp (conj Hact Hq))|].
  exact (proj1 (held_combination_activates_on_any_key_down
                  self 200 65 Hp Hact Hq)).
Defined.

(** ** Registering and unregistering *)

(** [unregister_hotkey] only stops the listener: it returns nothing, emits
    nothing and leaves the listener as [stop] does, the configuration
    included; a [start] after it listens for the configuration that
    [register_hotkey] stored before. *)
Theorem unregister_hotkey_only_stops (self : listener) (cfg : config) :
  result_of (unregister_hotkey self) = PyNone ∧
  signals_of (unregister_hotkey self) = [] ∧
  state_of (unregister_hotkey self) = state_of (stop self) ∧
  hotkey_config (state_of (unregister_hotkey self)) = hotkey_config self ∧
  (let s := state_of (start true (state_of (unregister_hotkey
                        (state_of (register_hotkey cfg self))))) in
   hotkey_config s = cfg ∧ is_running s = true).
Proof.
  unfold unregister_hotkey, register_hotkey, stop, start, mbind, M_bind,
    mret, M_ret, assign, attr.
  destruct self as [c r h p a l d]; simpl.
  destruct r; simpl; destruct (hook_truthy h); simpl; repeat split;
    reflexivity.
Qed.
